(** * jobspy_tool: the two call surfaces around [jobspy.scrape_jobs]

    The repository has two source files with one function each:
    - [jobspy_demo.py]: the plain function [jobspy_scraper];
    - [jobspy_tool.py]: the method [JobSpyScraperTool.scrape_job_listings].

    Both build a keyword dictionary, call the external [scrape_jobs] with it
    and reshape the returned pandas [DataFrame] into a JSON-like dictionary,
    all inside one [try: ... except Exception as e:] block.

    The embedding keeps the two functions apart (modules [Demo] and [Tool]),
    each written out from its own file, and keeps what they call apart
    too: Python values and exceptions ([Py]) and the pandas operations on
    the returned table ([Pandas]).  The external scrape is a parameter
    [scrape_jobs]; so are the order pandas gives to equal counts and the
    truth test of an argument that is no scalar, list or dictionary. *)

From Stdlib Require Import ZArith String Ascii DecimalString.
From stdpp Require Import base gmap strings list sorting.

Set Warnings "-register-all".
Open Scope string_scope.
Open Scope Z_scope.

(* ===================================================================== *)
(** ** Python values, exceptions and the two effects of the wrappers *)
(* ===================================================================== *)
Module Py.

(** Hashable scalars: what a dictionary key can be. *)
Inductive scalar :=
| SNone
| SBool (b : bool)
| SInt (n : Z)
| SStr (s : string).

(** Values: scalars, lists, insertion-ordered dictionaries, and instances
    of any other type, kept as the name the interpreter has for the type
    (its [tp_name]: ["Site"] for a class written in Python,
    ["datetime.date"] for a type of a C module) and the [repr] of the
    instance. *)
Inductive pyval :=
| VScalar (a : scalar)
| VList (l : list pyval)
| VDict (d : list (scalar * pyval))
| VObj (tp repr : string).

Abbreviation VNone := (VScalar SNone).
Abbreviation VBool b := (VScalar (SBool b)).
Abbreviation VInt n := (VScalar (SInt n)).
Abbreviation VStr s := (VScalar (SStr s)).

#[global] Instance scalar_eq_dec : EqDecision scalar.
Proof. solve_decision. Defined.

(** [bool] is a subclass of [int]: [True == 1], [False == 0], with equal
    hashes.  Two scalars are the same key when their [hash_key]s agree. *)
Definition hash_key (a : scalar) : scalar :=
  match a with
  | SBool b => SInt (Z.b2z b)
  | _ => a
  end.

Definition py_eq (a b : scalar) : Prop := hash_key a = hash_key b.

#[global] Instance py_eq_dec a b : Decision (py_eq a b).
Proof. unfold py_eq. apply _. Defined.

(** [d[k]] on an insertion-ordered dictionary, [None] for a missing key. *)
Fixpoint dict_get (k : scalar) (d : list (scalar * pyval)) : option pyval :=
  match d with
  | [] => None
  | (k', v) :: d' => if decide (py_eq k k') then Some v else dict_get k d'
  end.

(** [d[k] = v]: the value of a key that is there is replaced in place, a
    new key goes to the end. *)
Fixpoint dict_set (k : scalar) (v : pyval) (d : list (scalar * pyval))
  : list (scalar * pyval) :=
  match d with
  | [] => [(k, v)]
  | (k', v') :: d' =>
      if decide (py_eq k k') then (k', v) :: d' else (k', v') :: dict_set k v d'
  end.

(** [dict(pairs)] *)
Definition dict_of (pairs : list (scalar * pyval)) : list (scalar * pyval) :=
  foldl (λ d kv, dict_set kv.1 kv.2 d) [] pairs.

(** [type(v)]'s [tp_name], the name the interpreter has for the type. *)
Definition tp_name (v : pyval) : string :=
  match v with
  | VNone => "NoneType"
  | VBool _ => "bool"
  | VInt _ => "int"
  | VStr _ => "str"
  | VList _ => "list"
  | VDict _ => "dict"
  | VObj tp _ => tp
  end.

(** The name of the type of [v] as the message of [str.join] prints it,
    with the format ["%.80s"]: the first 80 bytes of it.  (A cut that
    falls inside a multi-byte character leaves a replacement character
    behind, which is not modelled: what is proved about the text of a
    message is proved for names of at most 80 bytes.) *)
Definition type_name (v : pyval) : string := String.substring 0 80 (tp_name v).

(** [str(n)] for a non-negative integer. *)
Definition nat_str (n : nat) : string := NilZero.string_of_uint (Nat.to_uint n).

(** An exception object: its class, whether that class derives from
    [Exception] (as opposed to [BaseException] only, like
    [KeyboardInterrupt] and [SystemExit]), and [str(e)]. *)
Record PyExc := {
  exc_class : string;
  exc_is_Exception : bool;
  exc_str : string
}.

Definition TypeError (msg : string) : PyExc :=
  {| exc_class := "TypeError"; exc_is_Exception := true; exc_str := msg |}.

(** [str(KeyError(k))] is [repr(k)]. *)
Definition KeyError (key : string) : PyExc :=
  {| exc_class := "KeyError"; exc_is_Exception := true;
     exc_str := "'" ++ key ++ "'" |}.

Definition ValueError (msg : string) : PyExc :=
  {| exc_class := "ValueError"; exc_is_Exception := true; exc_str := msg |}.

Definition ConnectionError (msg : string) : PyExc :=
  {| exc_class := "ConnectionError"; exc_is_Exception := true; exc_str := msg |}.

Definition KeyboardInterrupt : PyExc :=
  {| exc_class := "KeyboardInterrupt"; exc_is_Exception := false; exc_str := "" |}.


(** What evaluating an expression or running a block gives. *)
Inductive outcome (A : Type) :=
| Return (a : A)
| Raise (e : PyExc).
Arguments Return {A} a.
Arguments Raise {A} e.

#[global] Instance outcome_ret : MRet outcome := @Return.
#[global] Instance outcome_bind : MBind outcome := λ A B f m,
  match m with
  | Return a => f a
  | Raise e => Raise e
  end.

(** [try: body  except Exception as e: handler(e)]: the clause matches the
    instances of [Exception] and lets every other exception through. *)
Definition try_except {A} (body : outcome A) (handler : PyExc → outcome A)
  : outcome A :=
  match body with
  | Return a => Return a
  | Raise e => if exc_is_Exception e then handler e else Raise e
  end.

(** [bool(v)], the test of [if v:] and of [v or w].  Scalars, lists and
    dictionaries have their own; for an instance of another type it is
    what the [__bool__] or [__len__] of the type gives, or raises:
    [object_truth], by the name of the type and the [repr] of the
    instance (a numpy array of two items raises [ValueError]). *)
Definition truth (object_truth : string → string → outcome bool) (v : pyval)
  : outcome bool :=
  match v with
  | VNone => Return false
  | VBool b => Return b
  | VInt n => Return (bool_decide (n ≠ 0))
  | VStr s => Return (bool_decide (s ≠ ""))
  | VList l => Return (match l with [] => false | _ :: _ => true end)
  | VDict d => Return (match d with [] => false | _ :: _ => true end)
  | VObj tp repr => object_truth tp repr
  end.

(** The items of [sep.join(items)]: every item has to be a [str]. *)
Fixpoint str_items (i : nat) (items : list pyval) : outcome (list string) :=
  match items with
  | [] => Return []
  | VStr s :: rest => l ← str_items (S i) rest; Return (s :: l)
  | v :: _ =>
      Raise (TypeError ("sequence item " ++ nat_str i
                        ++ ": expected str instance, " ++ type_name v ++ " found"))
  end.

Definition str_join (sep : string) (items : list pyval) : outcome string :=
  l ← str_items 0 items; Return (String.concat sep l).

(** Truth value of a [str]. *)
Definition str_truthy (s : string) : bool := bool_decide (s ≠ "").

(** [a or b] where [a] is a [str] or [None] and [b] a [str]. *)
Definition str_or (a : option string) (b : string) : string :=
  match a with
  | Some s => if str_truthy s then s else b
  | None => b
  end.

(** *** Logging *)

Inductive level := INFO | WARNING | ERROR.

Definition LogRecord : Type := level * string.

(** A block that may call the logger and may raise. *)
Definition logged (A : Type) : Type := list LogRecord → outcome A * list LogRecord.

#[global] Instance logged_ret : MRet logged := λ A a lg, (Return a, lg).
#[global] Instance logged_bind : MBind logged := λ A B f m lg,
  match m lg with
  | (Return a, lg') => f a lg'
  | (Raise e, lg') => (Raise e, lg')
  end.

Definition emit (lvl : level) (msg : string) : logged unit :=
  λ lg, (Return tt, (lg ++ [(lvl, msg)])%list).

Definition lift {A} (o : outcome A) : logged A := λ lg, (o, lg).

Definition try_except_logged {A} (body : logged A) (handler : PyExc → logged A)
  : logged A :=
  λ lg,
    match body lg with
    | (Return a, lg') => (Return a, lg')
    | (Raise e, lg') => if exc_is_Exception e then handler e lg' else (Raise e, lg')
    end.

End Py.
Import Py.

(* ===================================================================== *)
(** ** The pandas operations the wrappers call *)
(* ===================================================================== *)
Module Pandas.

(** A cell of a table: a hashable scalar, or a list or a dictionary,
    which are not hashable.  A missing value ([None], [NaN]) is the cell
    [SNone].  (Cells of other types are not modelled apart: a hashable
    one, like a date, is counted as a scalar is, and an unhashable one,
    like a set, stops the counting as a list does.) *)
Inductive cell :=
| Hashable (a : scalar)
| CList (l : list pyval)
| CDict (d : list (scalar * pyval)).

(** A row of hashable cells. *)
Definition cells (l : list scalar) : list cell := Hashable <$> l.

(** The cell as a value of a record. *)
Definition cell_value (c : cell) : pyval :=
  match c with
  | Hashable a => VScalar a
  | CList l => VList l
  | CDict d => VDict d
  end.

(** A column of cells. *)
Abbreviation Series := (list cell).

(** What makes labels and rows a table: every row has one cell per
    label.  The labels need not be distinct. *)
Definition well_formed (cols : list string) (rws : list (list cell)) : Prop :=
  Forall (λ r, length r = length cols) rws.

#[global] Instance well_formed_dec cols rws : Decision (well_formed cols rws).
Proof. unfold well_formed. apply _. Defined.

(** A table: column labels and rows.  The index is the row numbers, so a
    table can have rows and no column. *)
Record DataFrame := {
  columns : list string;
  rows : list (list cell);
  frame_ok : Is_true (bool_decide (well_formed columns rows))
}.

(** [len(df)]: the number of rows. *)
Definition len (df : DataFrame) : nat := length (rows df).

(** [df.empty]: true when any of the two axes has length 0. *)
Definition empty (df : DataFrame) : bool :=
  bool_decide (length (rows df) = 0%nat) || bool_decide (length (columns df) = 0%nat).

(** [name in df.columns] *)
Definition has_column (name : string) (df : DataFrame) : bool :=
  bool_decide (name ∈ columns df).

(** The positions of the columns that have the label [name]. *)
Fixpoint positions (name : string) (cols : list string) : list nat :=
  match cols with
  | [] => []
  | c :: cols' =>
      if decide (c = name) then 0%nat :: (S <$> positions name cols')
      else S <$> positions name cols'
  end.

(** The column at position [i]. *)
Definition column (df : DataFrame) (i : nat) : Series :=
  (λ r, default (Hashable SNone) (r !! i)) <$> rows df.

(** What [df[name]] gives: the column when one column has the label, and
    the table of the columns with that label when two or more have it. *)
Inductive selection :=
| ASeries (s : Series)
| AFrame (label : string) (first second : Series) (more : list Series).

(** [df[name]]: [KeyError] when no column has the label. *)
Definition getitem (df : DataFrame) (name : string) : outcome selection :=
  match positions name (columns df) with
  | [] => Raise (KeyError name)
  | [i] => Return (ASeries (column df i))
  | i :: j :: more =>
      Return (AFrame name (column df i) (column df j) (column df <$> more))
  end.

(** One row as a mapping from column label to cell, as [dict(zip(columns,
    row))] builds it: in column order, and with the cell of the last
    column of a label that several columns have. *)
Definition record (cols : list string) (r : list cell) : pyval :=
  VDict (dict_of (zip (SStr <$> cols) (cell_value <$> r))).

(** [df.to_dict(orient="records")] *)
Definition to_dict_records (df : DataFrame) : list pyval :=
  record (columns df) <$> rows df.

(** Counting hashes the cells of a column, one after the other: the first
    cell that is a list or a dictionary stops it with a [TypeError]. *)
Fixpoint hashed (s : Series) : outcome (list scalar) :=
  match s with
  | [] => Return []
  | Hashable a :: s' => l ← hashed s'; Return (a :: l)
  | CList _ :: _ => Raise (TypeError "unhashable type: 'list'")
  | CDict _ :: _ => Raise (TypeError "unhashable type: 'dict'")
  end.

(** [nunique] and [value_counts] leave missing values out ([dropna=True]). *)
Definition dropna (l : list scalar) : list scalar := filter (λ c, c ≠ SNone) l.

(** The distinct values, in order of first appearance. *)
Fixpoint unique (l : list scalar) : list scalar :=
  match l with
  | [] => []
  | c :: l' => c :: filter (λ x, ¬ py_eq x c) (unique l')
  end.

(** The number of distinct values that are not missing. *)
Definition count_unique (l : list scalar) : nat := length (unique (dropna l)).

(** How often [c] occurs in [l]. *)
Definition occurrences (c : scalar) (l : list scalar) : nat :=
  length (filter (λ x, py_eq x c) l).

(** What [.nunique()] gives: a number for a column, and a column of
    numbers, one per column, for a table. *)
Inductive counted :=
| ACount (n : nat)
| ACounts (first second : nat) (more : list nat).

(** [x.nunique()]; on a table it counts column after column. *)
Definition nunique (x : selection) : outcome counted :=
  match x with
  | ASeries s => l ← hashed s; Return (ACount (count_unique l))
  | AFrame _ s1 s2 more =>
      l1 ← hashed s1;
      l2 ← hashed s2;
      ls ← mapM hashed more;
      Return (ACounts (count_unique l1) (count_unique l2) (count_unique <$> ls))
  end.

(** [int(n)]: a column of two or more numbers is no number (the text is
    that of pandas 2). *)
Definition int (n : counted) : outcome Z :=
  match n with
  | ACount n => Return (Z.of_nat n)
  | ACounts _ _ _ =>
      Raise (TypeError "cannot convert the series to <class 'int'>")
  end.

Section value_counts.
(** [value_counts] sorts the counts in descending order; the order it
    gives to equal counts depends on the pandas version, so the sort is
    a parameter. *)
Variable sort_values : list (scalar * nat) → list (scalar * nat).

(** Value and count of the values that are not missing, most frequent
    first. *)
Definition counts (l : list scalar) : list (scalar * nat) :=
  sort_values ((λ c, (c, occurrences c (dropna l))) <$> unique (dropna l)).

(** [x.value_counts()]: on a table it groups by the labels of the
    columns, and a label that two columns have cannot be grouped by (the
    text is that of pandas 2). *)
Definition value_counts (x : selection) : outcome (list (scalar * nat)) :=
  match x with
  | ASeries s => l ← hashed s; Return (counts l)
  | AFrame label _ _ _ =>
      Raise (ValueError ("Grouper for '" ++ label ++ "' not 1-dimensional"))
  end.
End value_counts.

(** [.head(n)] *)
Definition head {A} (n : nat) (l : list A) : list A := take n l.

(** [.to_dict()] of a counted series. *)
Definition to_dict (counts : list (scalar * nat)) : pyval :=
  VDict ((λ kc, (kc.1, VInt (Z.of_nat kc.2))) <$> counts).

(** Descending by count. *)
Definition count_ge (a b : scalar * nat) : Prop := (b.2 ≤ a.2)%nat.

#[global] Instance count_ge_dec a b : Decision (count_ge a b).
Proof. unfold count_ge. apply _. Defined.

(** One sort that orders by descending count. *)
Definition merge_sort_values : list (scalar * nat) → list (scalar * nat) :=
  merge_sort count_ge.

End Pandas.
Import Pandas.

(* ===================================================================== *)
(** ** The part of [logging] the method and its constructor use *)
(* ===================================================================== *)
Module Logging.

(** [logging.INFO], [logging.WARNING], [logging.ERROR]. *)
Definition level_value (l : level) : Z :=
  match l with
  | INFO => 20
  | WARNING => 30
  | ERROR => 40
  end.

(** A [StreamHandler] with its [Formatter]. *)
Record Handler := {
  formatter : string
}.

(** A logger: its handlers and its level, 0 being [NOTSET]. *)
Record Logger := {
  handlers : list Handler;
  level_no : Z
}.

(** [logging.getLogger(name)] on the loggers of the process: the logger of
    that name, made (without handler, level [NOTSET]) when there is none.
    Every caller of one name gets the same logger. *)
Definition getLogger (name : string) (loggers : gmap string Logger)
  : Logger * gmap string Logger :=
  match loggers !! name with
  | Some l => (l, loggers)
  | None =>
      let l := {| handlers := []; level_no := 0 |} in
      (l, <[name := l]> loggers)
  end.

(** [logger.getEffectiveLevel()] for a logger whose parent is the root
    logger: its own level unless that is [NOTSET]. *)
Definition getEffectiveLevel (root_level : Z) (l : Logger) : Z :=
  if decide (level_no l = 0) then root_level else level_no l.

(** [logger.isEnabledFor(level)], with [logging.disable] and
    [logger.disabled] at their defaults: what [info], [warning] and
    [error] test before they build a record. *)
Definition isEnabledFor (root_level : Z) (l : Logger) (lvl : level) : bool :=
  bool_decide (getEffectiveLevel root_level l ≤ level_value lvl).

End Logging.
Import Logging.

(* ===================================================================== *)
(** ** The parameters of both call surfaces *)
(* ===================================================================== *)

(** The fifteen named parameters, typed by their annotations
    ([site_name: list = None], [is_remote: bool | None = None], ...). *)
Record SearchParams := {
  search_term : string;
  location : string;
  site_name : option (list pyval);
  country_indeed : string;
  results_wanted : Z;
  hours_old : Z;
  distance : Z;
  offset : Z;
  job_type : string;
  is_remote : option bool;
  easy_apply : option bool;
  google_search_term : option string;
  linkedin_fetch_description : bool;
  enforce_annual_salary : bool;
  verbose : Z
}.

(** The defaults of the signature (the same in both files). *)
Definition defaults : SearchParams := {|
  search_term := "Software Engineer";
  location := "San Francisco, CA";
  site_name := None;
  country_indeed := "USA";
  results_wanted := 20;
  hours_old := 72;
  distance := 50;
  offset := 0;
  job_type := "";
  is_remote := None;
  easy_apply := None;
  google_search_term := None;
  linkedin_fetch_description := false;
  enforce_annual_salary := false;
  verbose := 2
|}.

(** The names a keyword argument is bound to before [**kwargs] sees it. *)
Definition parameter_names : list string :=
  [ "search_term"; "location"; "site_name"; "country_indeed"; "results_wanted";
    "hours_old"; "distance"; "offset"; "job_type"; "is_remote"; "easy_apply";
    "google_search_term"; "linkedin_fetch_description"; "enforce_annual_salary";
    "verbose" ].

(** What [**kwargs] can hold: Python binds a keyword that names a parameter
    to that parameter, so none of the fifteen names is a key of it. *)
Definition extra_keywords (kwargs : gmap string pyval) : Prop :=
  Forall (λ name, kwargs !! name = None) parameter_names.

#[global] Instance extra_keywords_dec kwargs : Decision (extra_keywords kwargs).
Proof. unfold extra_keywords. apply _. Defined.

(** The fifteen arguments as a call binds them, whatever their types. *)
Module Any.
Record Arguments := {
  search_term : pyval;
  location : pyval;
  site_name : pyval;
  country_indeed : pyval;
  results_wanted : pyval;
  hours_old : pyval;
  distance : pyval;
  offset : pyval;
  job_type : pyval;
  is_remote : pyval;
  easy_apply : pyval;
  google_search_term : pyval;
  linkedin_fetch_description : pyval;
  enforce_annual_salary : pyval;
  verbose : pyval
}.
End Any.


(* ===================================================================== *)
(** ** jobspy_demo.py *)
(* ===================================================================== *)
Module Demo.

(** Lines 73-98: the default site list and the [params] dictionary with
    its three optional filters. *)
Definition build_params (p : SearchParams) : gmap string pyval :=
  let site_name :=
    match site_name p with
    | None => [VStr "indeed"; VStr "linkedin"; VStr "zip_recruiter"; VStr "google"]
    | Some l => l
    end in
  let params : gmap string pyval :=
    {[ "site_name" := VList site_name;
       "search_term" := VStr (search_term p);
       "google_search_term" := VStr (str_or (google_search_term p) (search_term p));
       "location" := VStr (location p);
       "country_indeed" := VStr (country_indeed p);
       "results_wanted" := VInt (results_wanted p);
       "hours_old" := VInt (hours_old p);
       "distance" := VInt (distance p);
       "offset" := VInt (offset p);
       "verbose" := VInt (verbose p);
       "enforce_annual_salary" := VBool (enforce_annual_salary p);
       "linkedin_fetch_description" := VBool (linkedin_fetch_description p) ]} in
  let params :=
    if str_truthy (job_type p) then <["job_type" := VStr (job_type p)]> params
    else params in
  let params :=
    match is_remote p with
    | Some b => <["is_remote" := VBool b]> params
    | None => params
    end in
  let params :=
    match easy_apply p with
    | Some b => <["easy_apply" := VBool b]> params
    | None => params
    end in
  params.

(** Line 101, [params.update(kwargs)]: the keys of [kwargs] take its values. *)
Definition forwarded (p : SearchParams) (kwargs : gmap string pyval)
  : gmap string pyval :=
  kwargs ∪ build_params p.

(** Lines 131-134. *)
Definition failure (e : PyExc) : pyval :=
  VDict [ (SStr "success", VBool false);
          (SStr "error", VStr (exc_str e)) ].

Section jobspy_scraper.
Variable scrape_jobs : gmap string pyval → outcome DataFrame.
Variable sort_values : list (scalar * nat) → list (scalar * nat).

(** Lines 106-128: the two shapes of a result.  The summary of a table
    that is not empty can raise: [nunique] and [value_counts] on an
    unhashable cell, [int] and [value_counts] on a label that two columns
    have. *)
Definition shape (jobs_df : DataFrame) : outcome pyval :=
  if empty jobs_df then
    Return (VDict [ (SStr "success", VBool true);
                    (SStr "count", VInt 0);
                    (SStr "data", VList []);
                    (SStr "message", VStr "No jobs found. Try adjusting your filters.") ])
  else
    let data_json := to_dict_records jobs_df in
    unique_companies ←
      (if has_column "company" jobs_df
       then x ← getitem jobs_df "company";
            n ← nunique x;
            i ← int n;
            Return (VInt i)
       else Return VNone);
    top_locations ←
      (if has_column "city" jobs_df
       then x ← getitem jobs_df "city";
            c ← value_counts sort_values x;
            Return (to_dict (head 10 c))
       else Return (VDict []));
    Return (VDict [ (SStr "success", VBool true);
                    (SStr "count", VInt (Z.of_nat (len jobs_df)));
                    (SStr "data", VList data_json);
                    (SStr "metadata",
                      VDict [ (SStr "unique_companies", unique_companies);
                              (SStr "top_locations", top_locations) ]) ]).

(** Lines 72-128: the suite of the [try]. *)
Definition body (p : SearchParams) (kwargs : gmap string pyval) : outcome pyval :=
  jobs_df ← scrape_jobs (forwarded p kwargs);
  shape jobs_df.

(** [jobspy_scraper(..., **kwargs)] *)
Definition jobspy_scraper (p : SearchParams) (kwargs : gmap string pyval)
  : outcome pyval :=
  try_except (body p kwargs) (λ e, Return (failure e)).

(** *** Arguments of any type

    Python does not check the annotations of the signature.  With
    arguments of any type the steps before the scrape can raise: the
    truth tests of [google_search_term or search_term] (line 80) and of
    [if job_type:] (line 93) run the [__bool__] or [__len__] of the
    argument. *)
Variable object_truth : string → string → outcome bool.

(** Lines 73-101 on arguments of any type. *)
Definition assemble (a : Any.Arguments) (kwargs : gmap string pyval)
  : outcome (gmap string pyval) :=
  let site_name :=
    match Any.site_name a with
    | VNone => VList [VStr "indeed"; VStr "linkedin"; VStr "zip_recruiter"; VStr "google"]
    | v => v
    end in
  given ← truth object_truth (Any.google_search_term a);
  let params : gmap string pyval :=
    {[ "site_name" := site_name;
       "search_term" := Any.search_term a;
       "google_search_term" :=
         (if given : bool then Any.google_search_term a else Any.search_term a);
       "location" := Any.location a;
       "country_indeed" := Any.country_indeed a;
       "results_wanted" := Any.results_wanted a;
       "hours_old" := Any.hours_old a;
       "distance" := Any.distance a;
       "offset" := Any.offset a;
       "verbose" := Any.verbose a;
       "enforce_annual_salary" := Any.enforce_annual_salary a;
       "linkedin_fetch_description" := Any.linkedin_fetch_description a ]} in
  wanted ← truth object_truth (Any.job_type a);
  let params :=
    if wanted : bool then <["job_type" := Any.job_type a]> params else params in
  let params :=
    match Any.is_remote a with
    | VNone => params
    | v => <["is_remote" := v]> params
    end in
  let params :=
    match Any.easy_apply a with
    | VNone => params
    | v => <["easy_apply" := v]> params
    end in
  Return (kwargs ∪ params).

(** [jobspy_scraper(..., **kwargs)] called with arguments of any type. *)
Definition jobspy_scraper_any (a : Any.Arguments) (kwargs : gmap string pyval)
  : outcome pyval :=
  try_except
    (params ← assemble a kwargs;
     jobs_df ← scrape_jobs params;
     shape jobs_df)
    (λ e, Return (failure e)).
End jobspy_scraper.

End Demo.

(* ===================================================================== *)
(** ** jobspy_tool.py *)
(* ===================================================================== *)
Module Tool.

(** Lines 48-49: the default site list. *)
Definition sites (p : SearchParams) : list pyval :=
  match site_name p with
  | None => [VStr "indeed"; VStr "linkedin"; VStr "zip_recruiter"; VStr "google"]
  | Some l => l
  end.

(** Line 51: the text of the first log line; [', '.join(site_name)] raises
    [TypeError] on an item that is not a [str]. *)
Definition search_line (p : SearchParams) : outcome string :=
  joined ← str_join ", " (sites p);
  Return ("🔍 Searching '" ++ search_term p ++ "' jobs in " ++ location p
          ++ " across " ++ joined).

(** Lines 53-73: the [params] dictionary with its three optional filters. *)
Definition build_params (p : SearchParams) : gmap string pyval :=
  let params : gmap string pyval :=
    {[ "site_name" := VList (sites p);
       "search_term" := VStr (search_term p);
       "google_search_term" := VStr (str_or (google_search_term p) (search_term p));
       "location" := VStr (location p);
       "country_indeed" := VStr (country_indeed p);
       "results_wanted" := VInt (results_wanted p);
       "hours_old" := VInt (hours_old p);
       "distance" := VInt (distance p);
       "offset" := VInt (offset p);
       "verbose" := VInt (verbose p);
       "enforce_annual_salary" := VBool (enforce_annual_salary p);
       "linkedin_fetch_description" := VBool (linkedin_fetch_description p) ]} in
  let params :=
    if str_truthy (job_type p) then <["job_type" := VStr (job_type p)]> params
    else params in
  let params :=
    match is_remote p with
    | Some b => <["is_remote" := VBool b]> params
    | None => params
    end in
  let params :=
    match easy_apply p with
    | Some b => <["easy_apply" := VBool b]> params
    | None => params
    end in
  params.

(** Line 106. *)
Definition failure (e : PyExc) : pyval :=
  VDict [ (SStr "success", VBool false);
          (SStr "error", VStr (exc_str e)) ].

(** Lines 48-73: everything before the call of [scrape_jobs]: the default
    site list, the first log line and the [params] dictionary. *)
Definition assemble (p : SearchParams) : logged (gmap string pyval) :=
  line ← lift (search_line p);
  emit INFO line;;
  mret (build_params p).

Section scrape_job_listings.
Variable scrape_jobs : gmap string pyval → outcome DataFrame.
Variable sort_values : list (scalar * nat) → list (scalar * nat).

(** Lines 78-102: the two shapes of a result, each with its log line.
    The "Found" line (line 89) is written before the summary is computed
    (lines 96-100), which can raise. *)
Definition shape (p : SearchParams) (jobs_df : DataFrame) : logged pyval :=
  if empty jobs_df then
    emit WARNING "No jobs found for given parameters.";;
    mret (VDict [ (SStr "success", VBool true);
                  (SStr "count", VInt 0);
                  (SStr "data", VList []);
                  (SStr "message", VStr "No jobs found. Try adjusting your filters.") ])
  else
    let data_json := to_dict_records jobs_df in
    emit INFO ("✅ Found " ++ nat_str (len jobs_df) ++ " jobs for '"
               ++ search_term p ++ "'");;
    unique_companies ← lift
      (if has_column "company" jobs_df
       then x ← getitem jobs_df "company";
            n ← nunique x;
            i ← int n;
            Return (VInt i)
       else Return VNone);
    top_locations ← lift
      (if has_column "city" jobs_df
       then x ← getitem jobs_df "city";
            c ← value_counts sort_values x;
            Return (to_dict (head 10 c))
       else Return (VDict []));
    mret (VDict [ (SStr "success", VBool true);
                  (SStr "count", VInt (Z.of_nat (len jobs_df)));
                  (SStr "data", VList data_json);
                  (SStr "metadata",
                    VDict [ (SStr "unique_companies", unique_companies);
                            (SStr "top_locations", top_locations) ]) ]).

(** Lines 48-102: the suite of the [try]. *)
Definition body (p : SearchParams) : logged pyval :=
  params ← assemble p;
  jobs_df ← lift (scrape_jobs params);
  shape p jobs_df.

(** Lines 104-106: the handler logs the failure and returns it. *)
Definition handler (e : PyExc) : logged pyval :=
  emit ERROR ("❌ JobSpy scraping failed: " ++ exc_str e);;
  mret (failure e).

(** [await tool.scrape_job_listings(...)]: the method has no [await] of
    its own, so awaiting it runs the whole body; the result comes with
    the records handed to the logger. *)
Definition scrape_job_listings (p : SearchParams) : logged pyval :=
  try_except_logged (body p) handler.
End scrape_job_listings.

(** Lines 11-17 of [__init__]: the logger of the tool gets a handler and
    the level [INFO], unless it has a handler already.  ([super().__init__()]
    and [self.register(...)], lines 9 and 19-23, belong to the agent
    toolkit and do not touch the loggers.) *)
Definition __init__ (loggers : gmap string Logger) : gmap string Logger :=
  let '(logger, loggers) := getLogger "jobspy_scraper_tool" loggers in
  match handlers logger with
  | [] =>
      let handler := {| formatter := "%(levelname)s | %(asctime)s | %(message)s" |} in
      <["jobspy_scraper_tool" :=
          {| handlers := (handlers logger ++ [handler])%list;
             level_no := level_value INFO |}]> loggers
  | _ :: _ => loggers
  end.

End Tool.

(* ===================================================================== *)
(** ** What the claims say about a result *)
(* ===================================================================== *)

(** [result[key]] of a returned mapping; [None] for a missing key and for
    a call that raised or returned no mapping. *)
Definition result_field (key : string) (o : outcome pyval) : option pyval :=
  match o with
  | Return (VDict d) => dict_get (SStr key) d
  | _ => None
  end.

(** [result["metadata"][key]] *)
Definition metadata_field (key : string) (o : outcome pyval) : option pyval :=
  match result_field "metadata" o with
  | Some (VDict m) => dict_get (SStr key) m
  | _ => None
  end.



(** The result of a scrape that found nothing. *)
Definition no_jobs_result (o : outcome pyval) : Prop :=
  result_field "success" o = Some (VBool true)
  ∧ result_field "count" o = Some (VInt 0)
  ∧ result_field "data" o = Some (VList [])
  ∧ result_field "message" o
    = Some (VStr "No jobs found. Try adjusting your filters.")
  ∧ result_field "metadata" o = None.

(** The mapping [rec] is made from the row [row] of a table with the
    labels [cols]: its keys are the labels, each once, and what it has
    under a label is a cell that the row has in a column of that label. *)
Definition made_from (cols : list string) (row : list cell)
    (rec : list (scalar * pyval)) : Prop :=
  NoDup rec.*1
  ∧ (∀ key, key ∈ rec.*1 ↔ ∃ col, col ∈ cols ∧ key = SStr col)
  ∧ (∀ col v, dict_get (SStr col) rec = Some v →
       ∃ j c, cols !! j = Some col ∧ row !! j = Some c ∧ v = cell_value c).

(** The result lists the rows of [df]: [count] is their number and [data]
    has one mapping per row, in the order of the rows, the i-th mapping
    made from the i-th row. *)
Definition lists_rows (df : DataFrame) (o : outcome pyval) : Prop :=
  result_field "success" o = Some (VBool true)
  ∧ result_field "count" o = Some (VInt (Z.of_nat (length (rows df))))
  ∧ ∃ data,
      result_field "data" o = Some (VList data)
      ∧ length data = length (rows df)
      ∧ ∀ i row, rows df !! i = Some row →
          ∃ rec, data !! i = Some (VDict rec) ∧ made_from (columns df) row rec.

(** [vals] are the values under the label [name], row by row: the label
    is on a column all of whose cells are hashable. *)
Definition column_values (df : DataFrame) (name : string) (vals : list scalar)
  : Prop :=
  ∃ i, columns df !! i = Some name
       ∧ Forall2 (λ row a, row !! i = Some (Hashable a)) (rows df) vals.

(** The values under the label [name] can be counted: the label is on one
    column at most, and the cells of that column are hashable. *)
Definition countable (name : string) (df : DataFrame) : Prop :=
  (length (filter (λ c, c = name) (columns df)) ≤ 1)%nat
  ∧ ∀ i row, columns df !! i = Some name → row ∈ rows df →
      ∃ a, row !! i = Some (Hashable a).

(** The two labels the summary reads can be counted. *)
Definition summarisable (df : DataFrame) : Prop :=
  countable "company" df ∧ countable "city" df.

(** [n] is the number of distinct values of [s], missing ones left out. *)
Definition distinct_count (s : list scalar) (n : nat) : Prop :=
  ∃ keys : list scalar,
    NoDup keys
    ∧ (∀ k, k ∈ keys ↔ ∃ c, c ∈ s ∧ c ≠ SNone ∧ hash_key c = k)
    ∧ length keys = n.

(** How many of the values [s] are equal to [c]. *)
Definition count_of (c : scalar) (s : list scalar) : nat :=
  length (filter (λ x, hash_key x = hash_key c) s).

(** The mapping with the entries of [top], a value and its count, in
    their order. *)
Definition mapping (top : list (scalar * nat)) : pyval :=
  VDict ((λ entry, (entry.1, VInt (Z.of_nat entry.2))) <$> top).

(** [top] maps values of [s] to how often they occur, holds at most
    [limit] of them, and any value it leaves out occurs no more often than
    each value it holds. *)
Definition most_frequent (limit : nat) (s : list scalar)
    (top : list (scalar * nat)) : Prop :=
  NoDup (hash_key <$> top.*1)
  ∧ (∀ c n, (c, n) ∈ top → c ∈ s ∧ c ≠ SNone ∧ n = count_of c s)
  ∧ (length top ≤ limit)%nat
  ∧ (∀ c, c ∈ s → c ≠ SNone →
       (∃ c' n, (c', n) ∈ top ∧ hash_key c' = hash_key c)
       ∨ (length top = limit
          ∧ ∀ c' n, (c', n) ∈ top → (count_of c s ≤ n)%nat)).

(** The metadata of a result summarises [df]. *)
Definition summarises (df : DataFrame) (o : outcome pyval) : Prop :=
  ("company" ∈ columns df →
     ∃ s n, column_values df "company" s
            ∧ metadata_field "unique_companies" o = Some (VInt (Z.of_nat n))
            ∧ distinct_count s n)
  ∧ ("company" ∉ columns df → metadata_field "unique_companies" o = Some VNone)
  ∧ ("city" ∈ columns df →
       ∃ s top, column_values df "city" s
                ∧ metadata_field "top_locations" o = Some (mapping top)
                ∧ most_frequent 10 s top)
  ∧ ("city" ∉ columns df → metadata_field "top_locations" o = Some (VDict [])).

(** The result is a failure: [success] false and an [error] text, and
    nothing else. *)
Definition failed (o : outcome pyval) : Prop :=
  ∃ text, o = Return (VDict [ (SStr "success", VBool false);
                              (SStr "error", VStr text) ]).

(** Every item of an explicit site list is a [str]. *)
Definition sites_are_str (p : SearchParams) : Prop :=
  match site_name p with
  | None => True
  | Some l => Forall (λ v, ∃ s, v = VStr s) l
  end.

(* ===================================================================== *)
(** ** What the further properties say *)
(* ===================================================================== *)






(** The keys of a returned mapping, in order. *)
Definition result_keys (o : outcome pyval) : list scalar :=
  match o with
  | Return (VDict d) => d.*1
  | _ => []
  end.

(** The three mappings a call can return, by their keys. *)
Definition one_of_three_shapes (o : outcome pyval) : Prop :=
  (result_keys o = [SStr "success"; SStr "error"]
   ∧ result_field "success" o = Some (VBool false)
   ∧ ∃ text, result_field "error" o = Some (VStr text))
  ∨ (result_keys o = [SStr "success"; SStr "count"; SStr "data"; SStr "message"]
     ∧ no_jobs_result o)
  ∨ (result_keys o = [SStr "success"; SStr "count"; SStr "data"; SStr "metadata"]
     ∧ result_field "success" o = Some (VBool true)
     ∧ ∃ n, result_field "count" o = Some (VInt n) ∧ 0 < n).

(** A result with [success] true has a [data] list and a [count] that is
    the length of that list. *)
Definition counts_data (o : outcome pyval) : Prop :=
  result_field "success" o = Some (VBool true) →
  ∃ data, result_field "data" o = Some (VList data)
          ∧ result_field "count" o = Some (VInt (Z.of_nat (length data))).

(** The i-th mapping of [data] has the column labels of [df] as its keys,
    in their order, and under each label the cell of the i-th row. *)
Definition records_hold_rows (df : DataFrame) (o : outcome pyval) : Prop :=
  ∃ data,
    result_field "data" o = Some (VList data)
    ∧ ∀ i row, rows df !! i = Some row →
        ∃ rec, data !! i = Some (VDict rec)
               ∧ rec.*1 = SStr <$> columns df
               ∧ ∀ j col, columns df !! j = Some col →
                   ∃ cell, row !! j = Some cell
                           ∧ dict_get (SStr col) rec = Some (cell_value cell).

(** The metadata stays within the number of rows: no more distinct
    companies than rows, and location counts, each at least 1, that add up
    to no more than the number of rows. *)
Definition metadata_bounded (df : DataFrame) (o : outcome pyval) : Prop :=
  (∀ n, metadata_field "unique_companies" o = Some (VInt n) →
     0 ≤ n ≤ Z.of_nat (length (rows df)))
  ∧ ∃ top, metadata_field "top_locations" o = Some (mapping top)
           ∧ (sum_list_with snd top ≤ length (rows df))%nat
           ∧ Forall (λ kc : scalar * nat, (1 ≤ kc.2)%nat) top.

(** [top_locations] has at most ten entries; when the cities of the table
    are at most ten distinct ones it has an entry for every one of them,
    with the number of its rows, and its counts add up to the number of
    rows that have a city. *)
Definition locations_complete (df : DataFrame) (o : outcome pyval) : Prop :=
  ∀ s, column_values df "city" s →
    ∃ top, metadata_field "top_locations" o = Some (mapping top)
           ∧ (length top ≤ 10)%nat
           ∧ ((∀ n, distinct_count s n → (n ≤ 10)%nat) →
                (∀ c, c ∈ s → c ≠ SNone →
                   ∃ c', (c', count_of c s) ∈ top ∧ hash_key c' = hash_key c)
                ∧ sum_list_with snd top = length (filter (λ c, c ≠ SNone) s)).

(** With a column that holds missing values only, the summary is 0
    companies, or no location. *)
Definition blank_columns_summarised (df : DataFrame) (o : outcome pyval) : Prop :=
  (∀ s, column_values df "company" s → Forall (λ c, c = SNone) s →
     metadata_field "unique_companies" o = Some (VInt 0))
  ∧ (∀ s, column_values df "city" s → Forall (λ c, c = SNone) s →
       metadata_field "top_locations" o = Some (VDict [])).

(** The records a call has handed to the logger tell its result: an
    [ERROR] record goes with an [error] in the result and carries its
    text, the [WARNING] record goes with the "No jobs found" message, and a
    result that lists rows comes with the [INFO] record of their number. *)
Definition log_tells_result (p : SearchParams) (added : list LogRecord)
    (o : outcome pyval) : Prop :=
  (∀ m, (ERROR, m) ∈ added
        ↔ ∃ text, result_field "error" o = Some (VStr text)
                  ∧ m = "❌ JobSpy scraping failed: " ++ text)
  ∧ ((WARNING, "No jobs found for given parameters.") ∈ added
     ↔ is_Some (result_field "message" o))
  ∧ (∀ m, (WARNING, m) ∈ added → m = "No jobs found for given parameters.")
  ∧ (∀ n, result_field "count" o = Some (VInt (Z.of_nat n)) →
          is_Some (result_field "metadata" o) →
          (INFO, "✅ Found " ++ nat_str n ++ " jobs for '" ++ search_term p ++ "'")
          ∈ added).


(** The text of the [TypeError] that [str.join] raises at item [i]: it
    names the type of the item. *)
Definition join_error (i : nat) (v : pyval) : string :=
  "sequence item " ++ nat_str i ++ ": expected str instance, "
  ++ tp_name v ++ " found".

(** The name of the type of [v] has at most 80 bytes, so that a message
    prints the whole of it. *)
Definition short_type_name (v : pyval) : Prop :=
  (String.length (tp_name v) ≤ 80)%nat.

(** ** Sample inputs *)

Definition no_jobs : DataFrame := {| columns := []; rows := []; frame_ok := I |}.

(** Five rows, companies A, A, B, C, D, no ["city"] column. *)
Definition five_jobs : DataFrame := {|
  columns := ["title"; "company"];
  rows := [ cells [SStr "Data Scientist"; SStr "A"];
            cells [SStr "Data Scientist"; SStr "A"];
            cells [SStr "ML Engineer"; SStr "B"];
            cells [SStr "Data Scientist"; SStr "C"];
            cells [SStr "Analyst"; SStr "D"] ];
  frame_ok := I
|}.

(** Four rows with a ["city"] column, one company and one city missing. *)
Definition city_jobs : DataFrame := {|
  columns := ["company"; "city"];
  rows := [ cells [SStr "A"; SStr "Austin"];
            cells [SNone; SStr "Boston"];
            cells [SStr "B"; SStr "Austin"];
            cells [SStr "A"; SNone] ];
  frame_ok := I
|}.

(** A table with an index of two rows and no column at all, as
    [pd.DataFrame(index=[0, 1])] builds. *)
Definition two_blank_rows : DataFrame :=
  {| columns := []; rows := [ []; [] ]; frame_ok := I |}.

Definition data_scientist : SearchParams := {|
  search_term := "Data Scientist";
  location := "Remote";
  site_name := Some [VStr "indeed"];
  country_indeed := "USA";
  results_wanted := 5;
  hours_old := 72;
  distance := 50;
  offset := 0;
  job_type := "";
  is_remote := None;
  easy_apply := None;
  google_search_term := None;
  linkedin_fetch_description := false;
  enforce_annual_salary := false;
  verbose := 2
|}.

(** [job_type="fulltime", is_remote=False, easy_apply=True] *)
Definition filtered : SearchParams := {|
  search_term := "Software Engineer";
  location := "San Francisco, CA";
  site_name := None;
  country_indeed := "USA";
  results_wanted := 20;
  hours_old := 72;
  distance := 50;
  offset := 0;
  job_type := "fulltime";
  is_remote := Some false;
  easy_apply := Some true;
  google_search_term := None;
  linkedin_fetch_description := false;
  enforce_annual_salary := false;
  verbose := 2
|}.

(** [site_name=[Site.LINKEDIN]]: a member of jobspy's [Site] enumeration
    instead of its name. *)
Definition site_enum : SearchParams := {|
  search_term := "Software Engineer";
  location := "San Francisco, CA";
  site_name := Some [VObj "Site" "<Site.LINKEDIN: 'linkedin'>"];
  country_indeed := "USA";
  results_wanted := 20;
  hours_old := 72;
  distance := 50;
  offset := 0;
  job_type := "";
  is_remote := None;
  easy_apply := None;
  google_search_term := None;
  linkedin_fetch_description := false;
  enforce_annual_salary := false;
  verbose := 2
|}.

(** [description_format="html"]: a keyword of [scrape_jobs] that is no
    parameter of the wrapper. *)
Definition html_descriptions : gmap string pyval :=
  {[ "description_format" := VStr "html" ]}.

(** Two rows whose company and city are both missing. *)
Definition blank_jobs : DataFrame := {|
  columns := ["company"; "city"];
  rows := [ cells [SNone; SNone]; cells [SNone; SNone] ];
  frame_ok := I
|}.

(** Two rows of a table in which two columns have the label ["company"],
    as [pd.DataFrame([["Engineer", "A", "A Inc"], ["Analyst", "B", "B Ltd"]],
    columns=["title", "company", "company"])] builds. *)
Definition twin_company_jobs : DataFrame := {|
  columns := ["title"; "company"; "company"];
  rows := [ cells [SStr "Engineer"; SStr "A"; SStr "A Inc"];
            cells [SStr "Analyst"; SStr "B"; SStr "B Ltd"] ];
  frame_ok := I
|}.

(** Two rows of a table in which two columns have the label ["city"]. *)
Definition twin_city_jobs : DataFrame := {|
  columns := ["company"; "city"; "city"];
  rows := [ cells [SStr "A"; SStr "Austin"; SStr "Dallas"];
            cells [SStr "B"; SStr "Boston"; SStr "Salem"] ];
  frame_ok := I
|}.

(** Two rows, the company of the second one a list of two names. *)
Definition listed_company_jobs : DataFrame := {|
  columns := ["title"; "company"];
  rows := [ [Hashable (SStr "Engineer"); Hashable (SStr "A")];
            [Hashable (SStr "Analyst"); CList [VStr "B"; VStr "C"]] ];
  frame_ok := I
|}.

(** [job_type=numpy.array(["fulltime", "contract"])] with the other
    arguments at their defaults: an array of two items has no truth
    value. *)
Definition array_job_type : Any.Arguments := {|
  Any.search_term := VStr "Software Engineer";
  Any.location := VStr "San Francisco, CA";
  Any.site_name := VNone;
  Any.country_indeed := VStr "USA";
  Any.results_wanted := VInt 20;
  Any.hours_old := VInt 72;
  Any.distance := VInt 50;
  Any.offset := VInt 0;
  Any.job_type := VObj "numpy.ndarray" "array(['fulltime', 'contract'], dtype='<U8')";
  Any.is_remote := VNone;
  Any.easy_apply := VNone;
  Any.google_search_term := VNone;
  Any.linkedin_fetch_description := VBool false;
  Any.enforce_annual_salary := VBool false;
  Any.verbose := VInt 2
|}.

(** The truth test of numpy: an array of two items raises. *)
Definition numpy_truth (tp repr : string) : outcome bool :=
  if decide (tp = "numpy.ndarray")
  then Raise (ValueError "The truth value of an array with more than one element is ambiguous. Use a.any() or a.all()")
  else Return true.


(** [site_name=[date(2024, 1, 31)]]: an item of a type of a C module. *)
Definition site_date : SearchParams := {|
  search_term := "Software Engineer";
  location := "San Francisco, CA";
  site_name := Some [VObj "datetime.date" "datetime.date(2024, 1, 31)"];
  country_indeed := "USA";
  results_wanted := 20;
  hours_old := 72;
  distance := 50;
  offset := 0;
  job_type := "";
  is_remote := None;
  easy_apply := None;
  google_search_term := None;
  linkedin_fetch_description := false;
  enforce_annual_salary := false;
  verbose := 2
|}.

(* ===================================================================== *)
(** ** Runs on the sample inputs *)
(* ===================================================================== *)

Example jobspy_scraper_five_jobs :
  Demo.jobspy_scraper (λ _, Return five_jobs) merge_sort_values data_scientist ∅
  = Return (VDict [ (SStr "success", VBool true); (SStr "count", VInt 5);
      (SStr "data", VList (to_dict_records five_jobs));
      (SStr "metadata", VDict [ (SStr "unique_companies", VInt 4);
                                (SStr "top_locations", VDict []) ]) ]).
Proof. vm_compute. reflexivity. Qed.

Example scrape_job_listings_five_jobs :
  Tool.scrape_job_listings (λ _, Return five_jobs) merge_sort_values data_scientist []
  = (Demo.jobspy_scraper (λ _, Return five_jobs) merge_sort_values data_scientist ∅,
     [ (INFO, "🔍 Searching 'Data Scientist' jobs in Remote across indeed");
       (INFO, "✅ Found 5 jobs for 'Data Scientist'") ]).
Proof. vm_compute. reflexivity. Qed.

Example jobspy_scraper_city_jobs :
  metadata_field "top_locations"
    (Demo.jobspy_scraper (λ _, Return city_jobs) merge_sort_values defaults ∅)
  = Some (VDict [ (SStr "Austin", VInt 2); (SStr "Boston", VInt 1) ])
  ∧ metadata_field "unique_companies"
      (Demo.jobspy_scraper (λ _, Return city_jobs) merge_sort_values defaults ∅)
    = Some (VInt 2).
Proof. vm_compute. split; reflexivity. Qed.

Example scrape_job_listings_connection_error :
  Tool.scrape_job_listings (λ _, Raise (ConnectionError "connection refused"))
    merge_sort_values defaults []
  = (Return (VDict [ (SStr "success", VBool false);
                     (SStr "error", VStr "connection refused") ]),
     [ (INFO, "🔍 Searching 'Software Engineer' jobs in San Francisco, CA across indeed, linkedin, zip_recruiter, google");
       (ERROR, "❌ JobSpy scraping failed: connection refused") ]).
Proof. vm_compute. reflexivity. Qed.

Example scrape_job_listings_site_enum :
  (Tool.scrape_job_listings (λ _, Return no_jobs) merge_sort_values site_enum []).1
  = Return (VDict [ (SStr "success", VBool false);
      (SStr "error", VStr "sequence item 0: expected str instance, Site found") ]).
Proof. vm_compute. reflexivity. Qed.

Example to_dict_records_twin_company :
  to_dict_records twin_company_jobs
  = [ VDict [ (SStr "title", VStr "Engineer"); (SStr "company", VStr "A Inc") ];
      VDict [ (SStr "title", VStr "Analyst"); (SStr "company", VStr "B Ltd") ] ].
Proof. vm_compute. reflexivity. Qed.

Example jobspy_scraper_twin_company :
  Demo.jobspy_scraper (λ _, Return twin_company_jobs) merge_sort_values defaults ∅
  = Return (VDict [ (SStr "success", VBool false);
      (SStr "error", VStr "cannot convert the series to <class 'int'>") ]).
Proof. vm_compute. reflexivity. Qed.

Example scrape_job_listings_twin_company :
  Tool.scrape_job_listings (λ _, Return twin_company_jobs) merge_sort_values
    data_scientist []
  = (Return (VDict [ (SStr "success", VBool false);
       (SStr "error", VStr "cannot convert the series to <class 'int'>") ]),
     [ (INFO, "🔍 Searching 'Data Scientist' jobs in Remote across indeed");
       (INFO, "✅ Found 2 jobs for 'Data Scientist'");
       (ERROR, "❌ JobSpy scraping failed: cannot convert the series to <class 'int'>") ]).
Proof. vm_compute. reflexivity. Qed.

Example jobspy_scraper_twin_city :
  Demo.jobspy_scraper (λ _, Return twin_city_jobs) merge_sort_values defaults ∅
  = Return (VDict [ (SStr "success", VBool false);
      (SStr "error", VStr "Grouper for 'city' not 1-dimensional") ]).
Proof. vm_compute. reflexivity. Qed.

Example jobspy_scraper_listed_company :
  Demo.jobspy_scraper (λ _, Return listed_company_jobs) merge_sort_values defaults ∅
  = Return (VDict [ (SStr "success", VBool false);
      (SStr "error", VStr "unhashable type: 'list'") ]).
Proof. vm_compute. reflexivity. Qed.

Example jobspy_scraper_any_array_job_type :
  Demo.jobspy_scraper_any (λ _, Return five_jobs) merge_sort_values numpy_truth
    array_job_type ∅
  = Return (VDict [ (SStr "success", VBool false);
      (SStr "error", VStr "The truth value of an array with more than one element is ambiguous. Use a.any() or a.all()") ]).
Proof. vm_compute. reflexivity. Qed.

Example scrape_job_listings_site_date :
  (Tool.scrape_job_listings (λ _, Return no_jobs) merge_sort_values site_date []).1
  = Return (VDict [ (SStr "success", VBool false);
      (SStr "error",
        VStr "sequence item 0: expected str instance, datetime.date found") ]).
Proof. vm_compute. reflexivity. Qed.

Example forwarded_filtered :
  Demo.forwarded filtered html_descriptions
  = list_to_map
      [ ("site_name", VList [VStr "indeed"; VStr "linkedin"; VStr "zip_recruiter";
                             VStr "google"]);
        ("search_term", VStr "Software Engineer");
        ("google_search_term", VStr "Software Engineer");
        ("location", VStr "San Francisco, CA");
        ("country_indeed", VStr "USA");
        ("results_wanted", VInt 20);
        ("hours_old", VInt 72);
        ("distance", VInt 50);
        ("offset", VInt 0);
        ("verbose", VInt 2);
        ("enforce_annual_salary", VBool false);
        ("linkedin_fetch_description", VBool false);
        ("job_type", VStr "fulltime");
        ("is_remote", VBool false);
        ("easy_apply", VBool true);
        ("description_format", VStr "html") ].
Proof. vm_compute. reflexivity. Qed.

(* ===================================================================== *)
(** ** Facts about distinct values and counts *)
(* ===================================================================== *)

Lemma hash_key_None c : hash_key c = SNone ↔ c = SNone.
Proof. destruct c; simpl; split; congruence. Qed.

Lemma elem_of_dropna c s : c ∈ dropna s ↔ c ∈ s ∧ c ≠ SNone.
Proof. unfold dropna. rewrite list_elem_of_filter. tauto. Qed.

Lemma elem_of_unique c s : c ∈ unique s → c ∈ s.
Proof.
  induction s as [|x s IH]; simpl; [done|].
  rewrite !elem_of_cons, list_elem_of_filter. intros [->|[_ H]]; [by left|right; auto].
Qed.

Lemma unique_covers c s : c ∈ s → ∃ c', c' ∈ unique s ∧ py_eq c' c.
Proof.
  induction s as [|x s IH]; simpl; [by rewrite elem_of_nil|].
  rewrite elem_of_cons. intros [->|Hc].
  - exists x. split; [left|done].
  - destruct (IH Hc) as (c' & Hc' & Heq).
    destruct (decide (py_eq c' x)) as [Hx|Hx].
    + exists x. split; [left|]. unfold py_eq in *. congruence.
    + exists c'. split; [|done]. right. by apply list_elem_of_filter.
Qed.

Lemma NoDup_unique s : NoDup (hash_key <$> unique s).
Proof.
  induction s as [|x s IH]; simpl; [constructor|].
  constructor.
  - rewrite list_elem_of_fmap. intros (y & Hy & Hin).
    apply list_elem_of_filter in Hin as [Hne _]. by apply Hne.
  - refine (sublist_NoDup _ _ IH _). apply fmap_sublist, sublist_filter.
Qed.

Lemma count_unique_distinct_count s : distinct_count s (count_unique s).
Proof.
  exists (hash_key <$> unique (dropna s)). split_and!.
  - apply NoDup_unique.
  - intros k. rewrite list_elem_of_fmap. split.
    + intros (c & -> & Hc). apply elem_of_unique, elem_of_dropna in Hc as [? ?]. by exists c.
    + intros (c & Hc & Hne & <-).
      destruct (unique_covers c (dropna s)) as (c' & Hc' & Heq);
        [by apply elem_of_dropna|]. by exists c'.
  - unfold count_unique. by rewrite length_fmap.
Qed.

Lemma distinct_count_unique s n m : distinct_count s n → distinct_count s m → n = m.
Proof.
  intros (l1 & H1 & E1 & <-) (l2 & H2 & E2 & <-).
  apply Permutation_length, NoDup_Permutation; [done..|].
  intros k. by rewrite E1, E2.
Qed.

Lemma occurrences_py_eq c c' s : py_eq c' c → occurrences c' s = occurrences c s.
Proof.
  intros Heq. unfold occurrences. f_equal. apply list_filter_iff.
  intros x. unfold py_eq in *. by rewrite Heq.
Qed.

Lemma occurrences_dropna c s : c ≠ SNone → occurrences c (dropna s) = occurrences c s.
Proof.
  intros Hc. unfold occurrences, dropna.
  induction s as [|x s IH]; [done|].
  rewrite !filter_cons. destruct (decide (x ≠ SNone)) as [Hx|Hx].
  - rewrite filter_cons. destruct (decide (py_eq x c)); simpl; by rewrite IH.
  - apply dec_stable in Hx as ->. rewrite decide_False; [done|].
    unfold py_eq. simpl. intros Heq. apply Hc, hash_key_None. by symmetry.
Qed.

Section counts_facts.
Variable sort_values : list (scalar * nat) → list (scalar * nat).
Hypothesis sort_values_perm : ∀ l, sort_values l ≡ₚ l.
Hypothesis sort_values_desc : ∀ l, StronglySorted count_ge (sort_values l).

Lemma elem_of_counts c n s :
  (c, n) ∈ counts sort_values s
  ↔ c ∈ unique (dropna s) ∧ n = occurrences c (dropna s).
Proof.
  unfold counts. rewrite sort_values_perm, list_elem_of_fmap. split.
  - by intros (c' & [= -> ->] & Hc).
  - intros [Hc ->]. by exists c.
Qed.

(** What the claims count is what the model counts. *)
Lemma count_of_occurrences c s : count_of c s = occurrences c s.
Proof. reflexivity. Qed.

Lemma mapping_to_dict top : mapping top = to_dict top.
Proof. reflexivity. Qed.

Lemma head_counts_most_frequent limit s :
  most_frequent limit s (head limit (counts sort_values s)).
Proof.
  unfold most_frequent. setoid_rewrite count_of_occurrences.
  change (∀ c' c, hash_key c' = hash_key c) with (∀ c' c, py_eq c' c).
  unfold head. set (vc := counts sort_values s).
  split_and!.
  - rewrite !fmap_take. refine (sublist_NoDup _ _ _ (sublist_take _ _)).
    unfold vc, counts. rewrite sort_values_perm.
    rewrite <-!list_fmap_compose.
    erewrite list_fmap_ext; [apply NoDup_unique|]. done.
  - intros c n Hin. apply subseteq_take, elem_of_counts in Hin as [Hc ->].
    apply elem_of_unique, elem_of_dropna in Hc as [? ?].
    by rewrite occurrences_dropna.
  - rewrite length_take. lia.
  - intros c Hc Hne.
    destruct (unique_covers c (dropna s)) as (c' & Hc' & Heq);
      [by apply elem_of_dropna|].
    assert ((c', occurrences c' (dropna s)) ∈ vc) as Hin
      by by apply elem_of_counts.
    rewrite <-(take_drop limit vc) in Hin.
    apply elem_of_app in Hin as [Hin|Hin]; [left; eauto|right].
    assert (limit < length vc)%nat as Hlen.
    { destruct (decide (limit < length vc)%nat); [done|].
      rewrite drop_ge in Hin by lia. by apply elem_of_nil in Hin. }
    split; [rewrite length_take; lia|].
    intros c'' n Htop.
    pose proof (sort_values_desc ((λ c, (c, occurrences c (dropna s))) <$> unique (dropna s))) as Hs.
    fold (counts sort_values s) in Hs. fold vc in Hs.
    rewrite <-(take_drop limit vc) in Hs.
    pose proof (StronglySorted_app_1_elem_of _ _ _ _ _ Hs Htop Hin) as Hge.
    unfold count_ge in Hge. simpl in Hge.
    rewrite <-(occurrences_py_eq c c' s Heq), <-(occurrences_dropna c' s); [done|].
    intros ->. apply Hne, hash_key_None. by symmetry.
Qed.
End counts_facts.

#[global] Instance count_ge_trans : Transitive count_ge.
Proof. intros a b c. unfold count_ge. lia. Qed.
#[global] Instance count_ge_total : Total count_ge.
Proof. intros a b. unfold count_ge. lia. Qed.
Lemma merge_sort_values_perm l : merge_sort_values l ≡ₚ l.
Proof. apply merge_sort_Permutation. Qed.
Lemma merge_sort_values_desc l : StronglySorted count_ge (merge_sort_values l).
Proof. apply StronglySorted_merge_sort; apply _. Qed.

(* ===================================================================== *)
(** ** Facts about the table operations the result depends on *)
(* ===================================================================== *)

Lemma frame_ok_spec df : well_formed (columns df) (rows df).
Proof. apply (bool_decide_unpack _), frame_ok. Qed.

(** A row of a table has a cell under every label. *)
Lemma row_lookup df row i name :
  row ∈ rows df → columns df !! i = Some name → ∃ c, row !! i = Some c.
Proof.
  intros Hrow Hi. pose proof (frame_ok_spec df) as Hok.
  unfold well_formed in Hok. rewrite Forall_forall in Hok.
  apply lookup_lt_is_Some. rewrite (Hok _ Hrow). by eapply lookup_lt_Some.
Qed.

Lemma elem_of_positions name cols i :
  i ∈ positions name cols ↔ cols !! i = Some name.
Proof.
  revert i. induction cols as [|c cols IH]; intros i; simpl.
  - by rewrite elem_of_nil.
  - assert (i ∈ S <$> positions name cols ↔ ∃ j, i = S j ∧ cols !! j = Some name)
      as Hs.
    { rewrite list_elem_of_fmap. by setoid_rewrite IH. }
    destruct (decide (c = name)) as [->|Hne].
    + rewrite elem_of_cons, Hs. destruct i as [|i]; simpl.
      * split; [done|by left].
      * split; [by intros [|(j & [= ->] & ?)]|]. intros H. right. by exists i.
    + rewrite Hs. destruct i as [|i]; simpl.
      * split; [by intros (j & ? & _)|]. by intros [= ->].
      * split; [by intros (j & [= ->] & ?)|]. intros H. by exists i.
Qed.

Lemma length_positions (name : string) cols :
  length (positions name cols) = length (filter (λ c, c = name) cols).
Proof.
  induction cols as [|c cols IH]; simpl; [done|].
  rewrite filter_cons. destruct (decide (c = name)); simpl; by rewrite length_fmap, IH.
Qed.

Lemma positions_nil name cols : positions name cols = [] ↔ name ∉ cols.
Proof.
  split.
  - intros Hp [i Hi]%list_elem_of_lookup_1. apply elem_of_positions in Hi.
    rewrite Hp in Hi. by apply elem_of_nil in Hi.
  - intros Hn. destruct (positions name cols) as [|i l] eqn:Hp; [done|].
    destruct Hn. apply (list_elem_of_lookup_2 _ i), elem_of_positions.
    rewrite Hp. left.
Qed.

(** A label that is on one column at most has one position at most. *)
Lemma position_unique (name : string) cols i j :
  (length (filter (λ c, c = name) cols) ≤ 1)%nat →
  cols !! i = Some name → cols !! j = Some name → i = j.
Proof.
  rewrite <-length_positions, <-!elem_of_positions.
  destruct (positions name cols) as [|k [|k' l]]; simpl; [|..|lia].
  - by intros _ ?%elem_of_nil.
  - by intros _ ->%list_elem_of_singleton ->%list_elem_of_singleton.
Qed.

Lemma hashed_fmap l : hashed (Hashable <$> l) = Return l.
Proof.
  induction l as [|a l IH]; [done|].
  rewrite fmap_cons. cbn [hashed]. by rewrite IH.
Qed.

Lemma hashed_Return s l : hashed s = Return l → s = Hashable <$> l.
Proof.
  revert l. induction s as [|c s IH]; intros l; simpl; [by intros [= <-]|].
  destruct c as [a| |]; [|done..].
  destruct (hashed s) as [l'|]; simpl; [|done].
  intros [= <-]. simpl. by rewrite (IH l').
Qed.

Lemma hashed_Raise s e : hashed s = Raise e → exc_is_Exception e = true.
Proof.
  induction s as [|c s IH]; simpl; [done|].
  destruct c as [a| |]; [|by intros [= <-]..].
  destruct (hashed s); simpl; [done|]. intros [= <-]. by apply IH.
Qed.

Lemma mapM_hashed_Raise more e :
  mapM hashed more = Raise e → exc_is_Exception e = true.
Proof.
  induction more as [|s more IH]; simpl; [done|].
  destruct (hashed s) eqn:Hs; simpl; [|intros [= <-]; by eapply hashed_Raise].
  destruct (mapM hashed more); simpl; [done|]. intros [= <-]. by apply IH.
Qed.

(** On a table of two or more columns [int(x.nunique())] raises. *)
Lemma nunique_AFrame label s1 s2 more :
  (∃ e, nunique (AFrame label s1 s2 more) = Raise e ∧ exc_is_Exception e = true)
  ∨ (∃ n1 n2 ns, nunique (AFrame label s1 s2 more) = Return (ACounts n1 n2 ns)).
Proof.
  simpl.
  destruct (hashed s1) eqn:H1; simpl; [|left; eexists; split; [done|by eapply hashed_Raise]].
  destruct (hashed s2) eqn:H2; simpl; [|left; eexists; split; [done|by eapply hashed_Raise]].
  destruct (mapM hashed more) eqn:H3; simpl;
    [|left; eexists; split; [done|by eapply mapM_hashed_Raise]].
  right. by eexists _, _, _.
Qed.

Lemma column_hashable df i vals :
  Forall2 (λ row a, row !! i = Some (Hashable a)) (rows df) vals →
  column df i = Hashable <$> vals.
Proof.
  unfold column. generalize (rows df). intros rws H.
  induction H as [|row a rws vals Hrow _ IH]; [done|].
  by rewrite !fmap_cons, IH, Hrow.
Qed.

Lemma column_values_unique name df s1 s2 :
  countable name df → column_values df name s1 → column_values df name s2 →
  s1 = s2.
Proof.
  intros [Hone _] (i & Hi & H1) (j & Hj & H2).
  pose proof (position_unique _ _ _ _ Hone Hi Hj) as <-.
  revert s2 H2. induction H1 as [|row a rws vals Hrow _ IH]; intros s2 H2.
  - by apply Forall2_nil_inv_l in H2.
  - apply Forall2_cons_inv_l in H2 as (b & s2' & Hb & H2 & ->).
    f_equal; [congruence|by apply IH].
Qed.

(** What [df[name]] gives, by the columns that have the label. *)
Lemma getitem_cases name df :
  (countable name df ∧ name ∉ columns df)
  ∨ (name ∈ columns df ∧ countable name df
     ∧ ∃ vals, column_values df name vals
               ∧ getitem df name = Return (ASeries (Hashable <$> vals)))
  ∨ (name ∈ columns df ∧ ¬ countable name df
     ∧ ∃ s e, getitem df name = Return (ASeries s) ∧ hashed s = Raise e)
  ∨ (name ∈ columns df ∧ ¬ countable name df
     ∧ ∃ s1 s2 more, getitem df name = Return (AFrame name s1 s2 more)).
Proof.
  unfold getitem, countable. rewrite <-length_positions.
  destruct (positions name (columns df)) as [|i [|j more]] eqn:Hp.
  - left. apply positions_nil in Hp. split; [|done]. split; [simpl; lia|].
    intros i row Hi. destruct Hp. by eapply list_elem_of_lookup_2.
  - right.
    assert (columns df !! i = Some name) as Hi
      by (apply elem_of_positions; rewrite Hp; left).
    assert (name ∈ columns df) as Hin by by eapply list_elem_of_lookup_2.
    assert (∀ i', columns df !! i' = Some name → i' = i) as Honly.
    { intros i' Hi'%elem_of_positions. rewrite Hp in Hi'.
      by apply list_elem_of_singleton in Hi'. }
    destruct (hashed (column df i)) as [vals|e] eqn:Hh.
    + left. apply hashed_Return in Hh.
      assert (Forall2 (λ row a, row !! i = Some (Hashable a)) (rows df) vals) as Hv.
      { assert (∀ row, row ∈ rows df → ∃ c, row !! i = Some c) as Hrow
          by (intros row Hrow; by eapply row_lookup).
        unfold column in Hh. revert vals Hh Hrow. generalize (rows df).
        induction l as [|row rws IH]; intros vals Hh Hrow.
        - destruct vals; [constructor|done].
        - destruct vals as [|a vals]; [done|]. simpl in Hh. injection Hh as Ha Hh.
          constructor; [|apply IH; [done|intros r Hr; apply Hrow; by right]].
          destruct (Hrow row) as [c Hc]; [left|]. rewrite Hc in Ha. simpl in Ha.
          by subst. }
      split; [done|]. split.
      * split; [simpl; lia|]. intros i' row Hi' Hrow.
        rewrite (Honly i' Hi'). rewrite Forall2_lookup in Hv.
        apply list_elem_of_lookup_1 in Hrow as [k Hk].
        specialize (Hv k). rewrite Hk in Hv. inversion Hv; subst. by eexists.
      * exists vals. split; [by exists i|]. by rewrite Hh.
    + right. left. split; [done|]. split; [|by eexists _, _].
      intros [_ Hcells].
      assert (∃ vals, Forall2 (λ row a, row !! i = Some (Hashable a)) (rows df) vals)
        as [vals Hv].
      { assert (∀ row, row ∈ rows df → ∃ a, row !! i = Some (Hashable a)) as Hrow
          by (intros row Hrow; by eapply Hcells).
        revert Hrow. generalize (rows df).
        induction l as [|row rws IH]; intros Hrow; [by exists []|].
        destruct (Hrow row) as [a Ha]; [left|].
        destruct IH as [vals Hv]; [intros r Hr; apply Hrow; by right|].
        exists (a :: vals). by constructor. }
      by rewrite (column_hashable _ _ _ Hv), hashed_fmap in Hh.
  - right. right. right.
    assert (name ∈ columns df) as Hin.
    { apply (list_elem_of_lookup_2 _ i), elem_of_positions. rewrite Hp. left. }
    split; [done|]. split; [simpl; lia|]. by eexists _, _, _.
Qed.

Lemma empty_no_rows df : rows df = [] → empty df = true.
Proof. unfold empty. by intros ->. Qed.

Lemma empty_false df : rows df ≠ [] → columns df ≠ [] → empty df = false.
Proof.
  unfold empty. intros Hr Hc.
  rewrite !bool_decide_eq_false_2; [done|..]; by intros ?%nil_length_inv.
Qed.

Lemma empty_false_inv df : empty df = false → rows df ≠ [] ∧ columns df ≠ [].
Proof.
  unfold empty. intros [Hr Hc]%orb_false_iff.
  apply bool_decide_eq_false in Hr. apply bool_decide_eq_false in Hc.
  split; intros H; by rewrite H in *.
Qed.

Lemma to_dict_records_lookup df i row :
  rows df !! i = Some row → to_dict_records df !! i = Some (record (columns df) row).
Proof. intros H. unfold to_dict_records. by rewrite list_lookup_fmap, H. Qed.

(** *** Dictionaries built entry by entry *)

Lemma dict_get_set k' k v d :
  dict_get k' (dict_set k v d)
  = if decide (py_eq k' k) then Some v else dict_get k' d.
Proof.
  induction d as [|[k0 v0] d IH]; simpl; [done|].
  destruct (decide (py_eq k k0)) as [E|N]; simpl.
  - destruct (decide (py_eq k' k0)) as [E'|N'].
    + rewrite decide_True; [done|]. unfold py_eq in *. congruence.
    + rewrite decide_False; [done|]. unfold py_eq in *. congruence.
  - rewrite IH. destruct (decide (py_eq k' k0)) as [E'|N']; [|done].
    rewrite decide_False; [done|]. unfold py_eq in *. congruence.
Qed.

Lemma dict_set_keys k v d k' :
  k' ∈ (dict_set k v d).*1 → k' ∈ d.*1 ∨ k' = k.
Proof.
  induction d as [|[k0 v0] d IH]; simpl.
  - intros ->%list_elem_of_singleton. by right.
  - destruct (decide (py_eq k k0)); simpl; [by left|].
    rewrite !elem_of_cons. intros [->|H]; [by left; left|].
    destruct (IH H); [left; by right|by right].
Qed.

Lemma dict_set_NoDup k v d :
  NoDup (hash_key <$> d.*1) → NoDup (hash_key <$> (dict_set k v d).*1).
Proof.
  induction d as [|[k0 v0] d IH]; simpl.
  - intros _. apply NoDup_singleton.
  - intros [Hk0 Hd]%NoDup_cons.
    destruct (decide (py_eq k k0)) as [E|N]; simpl; [by constructor|].
    constructor; [|by apply IH].
    rewrite list_elem_of_fmap. intros (k1 & Hk1 & [Hin| ->]%dict_set_keys).
    + apply Hk0. rewrite Hk1. by apply list_elem_of_fmap_2.
    + by apply N.
Qed.

Lemma dict_get_key k d :
  is_Some (dict_get k d) → ∃ k0, k0 ∈ d.*1 ∧ py_eq k k0.
Proof.
  induction d as [|[k0 v0] d IH]; simpl; [by intros [? ?]|].
  destruct (decide (py_eq k k0)) as [E|N].
  - intros _. exists k0. split; [left|done].
  - intros (k1 & Hin & Heq)%IH. exists k1. split; [by right|done].
Qed.

Lemma foldl_dict_set_NoDup acc pairs :
  NoDup (hash_key <$> acc.*1) →
  NoDup (hash_key <$> (foldl (λ d kv, dict_set kv.1 kv.2 d) acc pairs).*1).
Proof.
  revert acc. induction pairs as [|[k v] pairs IH]; intros acc H; simpl; [done|].
  by apply IH, dict_set_NoDup.
Qed.

Lemma foldl_dict_set_keys acc pairs k :
  k ∈ (foldl (λ d kv, dict_set kv.1 kv.2 d) acc pairs).*1 →
  k ∈ acc.*1 ∨ k ∈ pairs.*1.
Proof.
  revert acc. induction pairs as [|[k1 v1] pairs IH]; intros acc; simpl; [by left|].
  intros [[H| ->]%dict_set_keys|H]%IH; [by left|right; left|right; by right].
Qed.

Lemma foldl_dict_set_get acc pairs k v :
  dict_get k (foldl (λ d kv, dict_set kv.1 kv.2 d) acc pairs) = Some v →
  dict_get k acc = Some v ∨ ∃ k0, py_eq k k0 ∧ (k0, v) ∈ pairs.
Proof.
  revert acc. induction pairs as [|[k1 v1] pairs IH]; intros acc; simpl; [by left|].
  intros [H|(k0 & Heq & Hin)]%IH.
  - simpl in H. rewrite dict_get_set in H.
    destruct (decide (py_eq k k1)) as [E|N]; [|by left].
    injection H as <-. right. exists k1. split; [done|left].
  - right. exists k0. split; [done|by right].
Qed.

Lemma foldl_dict_set_has acc pairs k :
  is_Some (dict_get k acc) ∨ k ∈ pairs.*1 →
  is_Some (dict_get k (foldl (λ d kv, dict_set kv.1 kv.2 d) acc pairs)).
Proof.
  revert acc. induction pairs as [|[k1 v1] pairs IH]; intros acc; simpl.
  - intros [H|H%elem_of_nil]; done.
  - intros H. apply IH. simpl. rewrite dict_get_set.
    destruct (decide (py_eq k k1)) as [E|N]; [left; by eexists|].
    destruct H as [H|[->|H]%elem_of_cons]; [by left| |by right].
    by destruct N.
Qed.

(** The record of a row is made from the row. *)
Lemma record_made_from cols row :
  length row = length cols →
  ∃ rec, record cols row = VDict rec ∧ made_from cols row rec.
Proof.
  intros Hlen. unfold record, dict_of.
  set (pairs := zip (SStr <$> cols) (cell_value <$> row)).
  assert (pairs.*1 = SStr <$> cols) as Hkeys
    by (apply fst_zip; rewrite !length_fmap; lia).
  eexists. split; [reflexivity|].
  set (rec := foldl _ _ pairs).
  assert (∀ key, key ∈ rec.*1 → ∃ col, col ∈ cols ∧ key = SStr col) as Hfrom.
  { intros key [H%elem_of_nil|H]%foldl_dict_set_keys; [done|].
    rewrite Hkeys in H. apply list_elem_of_fmap in H as (col & -> & Hcol).
    by exists col. }
  split_and!.
  - apply (NoDup_fmap_1 hash_key), foldl_dict_set_NoDup. constructor.
  - intros key. split; [apply Hfrom|]. intros (col & Hcol & ->).
    destruct (dict_get_key (SStr col) rec) as (k0 & Hk0 & Heq).
    { apply foldl_dict_set_has. right. rewrite Hkeys.
      by apply list_elem_of_fmap_2. }
    destruct (Hfrom k0 Hk0) as (col' & _ & ->).
    unfold py_eq in Heq. simpl in Heq. by injection Heq as ->.
  - intros col v [H|(k0 & Heq & Hin)]%foldl_dict_set_get; [done|].
    apply list_elem_of_lookup_1 in Hin as [j Hj].
    apply lookup_zip_with_Some in Hj as (k1 & v1 & [= -> ->] & Hk1 & Hv1).
    rewrite list_lookup_fmap in Hk1. rewrite list_lookup_fmap in Hv1.
    destruct (cols !! j) as [col'|] eqn:Hcol; [|done].
    destruct (row !! j) as [c|] eqn:Hc; [|done].
    injection Hk1 as <-. injection Hv1 as <-.
    unfold py_eq in Heq. simpl in Heq. injection Heq as ->.
    by exists j, c.
Qed.

(* ===================================================================== *)
(** ** Facts about the two wrappers *)
(* ===================================================================== *)

Lemma str_items_ok i l :
  Forall (λ v, ∃ s, v = VStr s) l → ∃ ss, str_items i l = Return ss.
Proof.
  intros H. revert i. induction H as [|v l [s ->] _ IH]; intros i; simpl.
  - by eexists.
  - destruct (IH (S i)) as [ss ->]. by eexists.
Qed.

Lemma str_items_raise i l e :
  str_items i l = Raise e → exc_is_Exception e = true.
Proof.
  revert i. induction l as [|v l IH]; intros i; simpl; [done|].
  destruct v as [[| | |s]| | |]; try (intros [= <-]; done).
  destruct (str_items (S i) l) eqn:E; simpl; [done|].
  intros [= <-]. eauto.
Qed.

Lemma search_line_ok p : sites_are_str p → ∃ line, Tool.search_line p = Return line.
Proof.
  intros H. unfold Tool.search_line, str_join.
  assert (Forall (λ v, ∃ s, v = VStr s) (Tool.sites p)) as Hs.
  { unfold Tool.sites, sites_are_str in *. destruct (site_name p); [done|].
    repeat constructor; by eexists. }
  destruct (str_items_ok 0 _ Hs) as [ss ->]. simpl. by eexists.
Qed.

Lemma search_line_raise p e :
  Tool.search_line p = Raise e → exc_is_Exception e = true.
Proof.
  unfold Tool.search_line, str_join.
  destruct (str_items 0 (Tool.sites p)) eqn:E; simpl; [done|].
  intros [= <-]. by eapply str_items_raise.
Qed.

Lemma assemble_search_line p lg :
  (Tool.assemble p lg).1
  = match Tool.search_line p with
    | Return _ => Return (Tool.build_params p)
    | Raise e => Raise e
    end.
Proof. unfold Tool.assemble. simpl. by destruct (Tool.search_line p). Qed.


Lemma build_params_agree p : Tool.build_params p = Demo.forwarded p ∅.
Proof. unfold Demo.forwarded. rewrite (left_id_L ∅ (∪)). reflexivity. Qed.


Section wrapper_facts.
Variable scrape_jobs : gmap string pyval → outcome DataFrame.
Variable sort_values : list (scalar * nat) → list (scalar * nat).

Abbreviation jobspy_scraper := (Demo.jobspy_scraper scrape_jobs sort_values).
Abbreviation scrape_job_listings := (Tool.scrape_job_listings scrape_jobs sort_values).

(** The shaping step of the method: the shape of the plain function and
    one more record. *)
Lemma shape_logged p df lg :
  Tool.shape sort_values p df lg
  = (Demo.shape sort_values df,
     (lg ++ [ if empty df
              then (WARNING, "No jobs found for given parameters.")
              else (INFO, ("✅ Found " ++ nat_str (len df) ++ " jobs for '"
                           ++ search_term p ++ "'")%string) ])%list).
Proof.
  unfold Tool.shape, Demo.shape.
  destruct (empty df); [done|].
  unfold emit, lift, mbind, logged_bind, mret, logged_ret.
  destruct (if has_column "company" df then _ else _) as [uc|e]; [|done].
  destruct (if has_column "city" df then _ else _) as [tl|e]; done.
Qed.

Lemma shape_agree p df lg :
  (Tool.shape sort_values p df lg).1 = Demo.shape sort_values df.
Proof. by rewrite shape_logged. Qed.

Lemma shape_empty df :
  empty df = true →
  Demo.shape sort_values df
  = Return (VDict [ (SStr "success", VBool true);
                    (SStr "count", VInt 0);
                    (SStr "data", VList []);
                    (SStr "message", VStr "No jobs found. Try adjusting your filters.") ]).
Proof. unfold Demo.shape. by intros ->. Qed.

(** The shaping step on a table that is not empty: the rows and their
    summary when the two labels can be counted, an instance of
    [Exception] when one of them cannot. *)
Lemma shape_cases df :
  empty df = false →
  (summarisable df
   ∧ ∃ unique_companies top_locations,
       Demo.shape sort_values df
       = Return (VDict [ (SStr "success", VBool true);
                         (SStr "count", VInt (Z.of_nat (len df)));
                         (SStr "data", VList (to_dict_records df));
                         (SStr "metadata",
                           VDict [ (SStr "unique_companies", unique_companies);
                                   (SStr "top_locations", top_locations) ]) ])
       ∧ (if has_column "company" df
          then ∃ s, column_values df "company" s
                    ∧ unique_companies = VInt (Z.of_nat (count_unique s))
          else unique_companies = VNone)
       ∧ (if has_column "city" df
          then ∃ s, column_values df "city" s
                    ∧ top_locations = to_dict (head 10 (counts sort_values s))
          else top_locations = VDict []))
  ∨ (¬ summarisable df
     ∧ ∃ e, Demo.shape sort_values df = Raise e ∧ exc_is_Exception e = true).
Proof.
  intros He. unfold summarisable, has_column.
  remember (Demo.shape sort_values df) as o eqn:Ho.
  unfold Demo.shape, has_column in Ho. rewrite He in Ho.
  destruct (getitem_cases "company" df)
    as [[Cco Hco]|[(Hco & Cco & sco & Vco & Gco)
       |[(Hco & Cco & sco & eco & Gco & Rco)|(Hco & Cco & s1 & s2 & more & Gco)]]].
  3:{ right. split; [tauto|].
      rewrite (bool_decide_eq_true_2 _ Hco), Gco in Ho.
      cbn [mbind outcome_bind nunique] in Ho. rewrite Rco in Ho.
      exists eco. split; [done|]. by eapply hashed_Raise. }
  3:{ right. split; [tauto|].
      rewrite (bool_decide_eq_true_2 _ Hco), Gco in Ho.
      cbn [mbind outcome_bind] in Ho.
      destruct (nunique_AFrame "company" s1 s2 more)
        as [(e & Hn & Hexc)|(n1 & n2 & ns & Hn)]; rewrite Hn in Ho;
        cbn [mbind outcome_bind int] in Ho; by eexists. }
  all: destruct (getitem_cases "city" df)
    as [[Cci Hci]|[(Hci & Cci & sci & Vci & Gci)
       |[(Hci & Cci & sci & eci & Gci & Rci)|(Hci & Cci & t1 & t2 & tmore & Gci)]]].
  all: rewrite ?(bool_decide_eq_true_2 _ Hco), ?(bool_decide_eq_false_2 _ Hco),
         ?(bool_decide_eq_true_2 _ Hci), ?(bool_decide_eq_false_2 _ Hci), ?Gco, ?Gci
         in Ho;
       cbn [mbind outcome_bind nunique value_counts int] in Ho;
       rewrite ?hashed_fmap, ?Rci in Ho;
       cbn [mbind outcome_bind nunique value_counts int] in Ho.
  all: rewrite ?(bool_decide_eq_true_2 _ Hco), ?(bool_decide_eq_false_2 _ Hco),
         ?(bool_decide_eq_true_2 _ Hci), ?(bool_decide_eq_false_2 _ Hci).
  all: first
    [ solve [ left; split; [done|]; eexists _, _; split; [exact Ho|];
              split; cbn iota; eauto ]
    | right; (split; [tauto|]); eexists; (split; [exact Ho|]);
      try done; by eapply hashed_Raise ].
Qed.

Lemma shape_rows df :
  empty df = false → summarisable df →
  ∃ unique_companies top_locations,
    Demo.shape sort_values df
    = Return (VDict [ (SStr "success", VBool true);
                      (SStr "count", VInt (Z.of_nat (len df)));
                      (SStr "data", VList (to_dict_records df));
                      (SStr "metadata",
                        VDict [ (SStr "unique_companies", unique_companies);
                                (SStr "top_locations", top_locations) ]) ])
    ∧ (if has_column "company" df
       then ∃ s, column_values df "company" s
                 ∧ unique_companies = VInt (Z.of_nat (count_unique s))
       else unique_companies = VNone)
    ∧ (if has_column "city" df
       then ∃ s, column_values df "city" s
                 ∧ top_locations = to_dict (head 10 (counts sort_values s))
       else top_locations = VDict []).
Proof.
  intros He Hs. by destruct (shape_cases df He) as [[_ H]|[? _]].
Qed.

Lemma shape_fails df :
  empty df = false → ¬ summarisable df →
  ∃ e, Demo.shape sort_values df = Raise e ∧ exc_is_Exception e = true.
Proof.
  intros He Hs. by destruct (shape_cases df He) as [[? _]|[_ H]].
Qed.

(** What the shaping step raises is an instance of [Exception]. *)
Lemma shape_raised df e :
  Demo.shape sort_values df = Raise e →
  exc_is_Exception e = true ∧ empty df = false ∧ ¬ summarisable df.
Proof.
  destruct (empty df) eqn:He; [by rewrite shape_empty|].
  destruct (shape_cases df He) as [(_ & uc & tl & -> & _)|(Hs & e' & -> & Hexc)];
    [done|]. by intros [= <-].
Qed.


(** The plain function, by what the scrape does. *)
Lemma jobspy_scraper_returned p kwargs df :
  scrape_jobs (Demo.forwarded p kwargs) = Return df →
  jobspy_scraper p kwargs
  = match Demo.shape sort_values df with
    | Return v => Return v
    | Raise e => Return (Demo.failure e)
    end.
Proof.
  intros H. unfold Demo.jobspy_scraper, Demo.body. rewrite H. simpl.
  destruct (Demo.shape sort_values df) as [v|e] eqn:Hs; [done|].
  simpl. by rewrite (proj1 (shape_raised df e Hs)).
Qed.

Lemma jobspy_scraper_raised p kwargs e :
  scrape_jobs (Demo.forwarded p kwargs) = Raise e →
  jobspy_scraper p kwargs
  = if exc_is_Exception e then Return (Demo.failure e) else Raise e.
Proof.
  intros H. unfold Demo.jobspy_scraper, Demo.body. rewrite H. reflexivity.
Qed.


(** The method returns what the plain function returns once its first
    log line is written. *)
Lemma scrape_job_listings_logged p lg line :
  Tool.search_line p = Return line →
  (scrape_job_listings p lg).1 = jobspy_scraper p ∅.
Proof.
  intros Hl.
  unfold Tool.scrape_job_listings, try_except_logged, Tool.body, Tool.assemble,
    Tool.handler.
  unfold Demo.jobspy_scraper, Demo.body.
  rewrite <-build_params_agree.
  unfold mbind at 1 2 3 4, logged_bind, lift. rewrite Hl. simpl.
  destruct (scrape_jobs (Tool.build_params p)) as [df|e]; simpl.
  - rewrite shape_logged.
    destruct (Demo.shape sort_values df) as [v|e] eqn:Hs; [done|].
    simpl. by rewrite (proj1 (shape_raised df e Hs)).
  - by destruct (exc_is_Exception e).
Qed.

(** Once the parameters are assembled, the method calls the scrape with
    the parameters of the plain function and returns what it returns. *)
Lemma scrape_job_listings_assembled p lg params :
  (Tool.assemble p lg).1 = Return params →
  params = Demo.forwarded p ∅
  ∧ (scrape_job_listings p lg).1 = jobspy_scraper p ∅.
Proof.
  rewrite assemble_search_line.
  destruct (Tool.search_line p) as [line|e] eqn:Hl; [|done].
  intros [= <-]. split; [apply build_params_agree|].
  by eapply scrape_job_listings_logged.
Qed.

(** The method returns the failure of its first log line. *)
Lemma scrape_job_listings_line_raised p lg e :
  Tool.search_line p = Raise e →
  (scrape_job_listings p lg).1 = Return (Tool.failure e).
Proof.
  intros Hl.
  unfold Tool.scrape_job_listings, try_except_logged, Tool.body, Tool.assemble.
  unfold mbind, logged_bind, lift. rewrite Hl. simpl.
  by rewrite (search_line_raise _ _ Hl).
Qed.
End wrapper_facts.

(* ===================================================================== *)
(** ** The claims *)
(* ===================================================================== *)

Section claims.
Variable scrape_jobs : gmap string pyval → outcome DataFrame.
Variable sort_values : list (scalar * nat) → list (scalar * nat).
Variable object_truth : string → string → outcome bool.

Abbreviation jobspy_scraper := (Demo.jobspy_scraper scrape_jobs sort_values).
Abbreviation scrape_job_listings := (Tool.scrape_job_listings scrape_jobs sort_values).



(** C3.  If the scrape returns a table with no rows, the result is
    [success] true, [count] 0, [data] the empty list and the
    "No jobs found" message, without [metadata]. *)
Theorem no_rows_reported p kwargs lg df :
  rows df = [] →
  (scrape_jobs (Demo.forwarded p kwargs) = Return df →
     no_jobs_result (jobspy_scraper p kwargs))
  ∧ (∀ params, (Tool.assemble p lg).1 = Return params →
       scrape_jobs params = Return df →
       no_jobs_result (scrape_job_listings p lg).1).
Proof.
  intros Hrows.
  assert (∀ kw, scrape_jobs (Demo.forwarded p kw) = Return df →
                no_jobs_result (jobspy_scraper p kw)) as Hdemo.
  { intros kw Hs. rewrite (jobspy_scraper_returned _ _ _ _ _ Hs).
    rewrite shape_empty by by apply empty_no_rows. by repeat split. }
  split; [apply Hdemo|].
  intros params [-> ->]%(scrape_job_listings_assembled scrape_jobs sort_values).
  apply Hdemo.
Qed.

(** C4 (as amended).  If the scrape returns a table with N > 0 rows and
    at least one column, in which the labels ["company"] and ["city"] are
    on one column at most each and the cells of these columns are
    hashable, the result has [success] true, [count] N and [data] a list
    of N mappings, the i-th one made from the i-th row: its keys are the
    column labels, and under a label it has a cell of that row. *)
Theorem rows_reported p kwargs lg df :
  rows df ≠ [] → columns df ≠ [] → summarisable df →
  (scrape_jobs (Demo.forwarded p kwargs) = Return df →
     lists_rows df (jobspy_scraper p kwargs))
  ∧ (∀ params, (Tool.assemble p lg).1 = Return params →
       scrape_jobs params = Return df →
       lists_rows df (scrape_job_listings p lg).1).
Proof.
  intros Hrows Hcols Hsum.
  assert (∀ kw, scrape_jobs (Demo.forwarded p kw) = Return df →
                lists_rows df (jobspy_scraper p kw)) as Hdemo.
  { intros kw Hs. rewrite (jobspy_scraper_returned _ _ _ _ _ Hs).
    destruct (shape_rows sort_values df) as (uc & tl & -> & _);
      [by apply empty_false|done|].
    split; [done|]. split; [done|].
    exists (to_dict_records df). split; [done|]. split.
    - unfold to_dict_records. by rewrite length_fmap.
    - intros i row Hrow.
      destruct (record_made_from (columns df) row) as (rec & Hrec & Hmade).
      { pose proof (frame_ok_spec df) as Hok. unfold well_formed in Hok.
        rewrite Forall_forall in Hok. apply Hok. by eapply list_elem_of_lookup_2. }
      exists rec. split; [|done].
      by rewrite (to_dict_records_lookup _ _ _ Hrow), Hrec. }
  split; [apply Hdemo|].
  intros params [-> ->]%(scrape_job_listings_assembled scrape_jobs sort_values).
  apply Hdemo.
Qed.

(** C5 (as amended).  For a table that is not empty, in which the labels
    ["company"] and ["city"] are on one column at most each and the cells
    of these columns are hashable, [unique_companies]
    is the number of distinct values of the ["company"] column that are
    not missing, and [None] without that column; [top_locations] maps
    the values of the ["city"] column that are not missing to their
    number of occurrences, restricted to ten of them none of which
    occurs less often than a value left out, and is the empty mapping
    without that column.  This holds for every order the sort by count
    gives to equal counts. *)
Theorem metadata_reported p kwargs lg df :
  (∀ l, sort_values l ≡ₚ l) →
  (∀ l, StronglySorted count_ge (sort_values l)) →
  rows df ≠ [] → columns df ≠ [] → summarisable df →
  (scrape_jobs (Demo.forwarded p kwargs) = Return df →
     summarises df (jobspy_scraper p kwargs))
  ∧ (∀ params, (Tool.assemble p lg).1 = Return params →
       scrape_jobs params = Return df →
       summarises df (scrape_job_listings p lg).1).
Proof.
  intros Hperm Hdesc Hrows Hcols Hsum.
  pose proof (empty_false df Hrows Hcols) as Hne.
  assert (∀ kw, scrape_jobs (Demo.forwarded p kw) = Return df →
                summarises df (jobspy_scraper p kw)) as Hdemo.
  { intros kw Hs. rewrite (jobspy_scraper_returned _ _ _ _ _ Hs).
    destruct (shape_rows sort_values df Hne Hsum) as (uc & tl & -> & Huc & Htl).
    unfold has_column in Huc, Htl. unfold summarises.
    change (metadata_field "unique_companies" _) with (Some uc).
    change (metadata_field "top_locations" _) with (Some tl).
    split_and!.
    - intros Hin. rewrite bool_decide_eq_true_2 in Huc by done.
      destruct Huc as (s & Hg & ->). exists s, (count_unique s).
      split_and!; [done..|]. apply count_unique_distinct_count.
    - intros Hin. rewrite bool_decide_eq_false_2 in Huc by done. by subst.
    - intros Hin. rewrite bool_decide_eq_true_2 in Htl by done.
      destruct Htl as (s & Hg & ->).
      exists s, (head 10 (counts sort_values s)).
      split_and!; [done..|]. by apply head_counts_most_frequent.
    - intros Hin. rewrite bool_decide_eq_false_2 in Htl by done. by subst. }
  split; [apply Hdemo|].
  intros params [-> ->]%(scrape_job_listings_assembled scrape_jobs sort_values).
  apply Hdemo.
Qed.




(** C9 (as amended).  For parameters whose site list is unset or holds
    only [str] items, and for every behaviour of the scrape, the method
    returns (or raises) what the plain function does without overrides. *)
Theorem surfaces_agree p lg :
  sites_are_str p →
  (scrape_job_listings p lg).1 = jobspy_scraper p ∅.
Proof.
  intros [line Hl]%search_line_ok. by eapply scrape_job_listings_logged.
Qed.

End claims.

(** ** The claims on the sample inputs *)

(** A way to see that the values under a label can be counted: by the
    positions of the label and the cells at its position. *)
Lemma countable_intro name df :
  match positions name (columns df) with
  | [] => True
  | [i] => Forall (λ c, ∃ a, c = Hashable a) (column df i)
  | _ => False
  end →
  countable name df.
Proof.
  intros H.
  destruct (getitem_cases name df)
    as [[C _]|[(_ & C & _)|[(_ & _ & s & e & G & R)|(_ & _ & s1 & s2 & more & G)]]];
    [done..| |]; unfold getitem in G;
    destruct (positions name (columns df)) as [|i [|j l]]; try done.
  injection G as <-.
  assert (∃ vals, column df i = Hashable <$> vals) as [vals Hv].
  { clear R. induction H as [|c s [a ->] _ [vals ->]]; [by exists []|].
    by exists (a :: vals). }
  by rewrite Hv, hashed_fmap in R.
Qed.

Lemma five_jobs_summarisable : summarisable five_jobs.
Proof.
  split; apply countable_intro; vm_compute; [|done].
  repeat (constructor; [by eexists|]). constructor.
Qed.

Lemma city_jobs_summarisable : summarisable city_jobs.
Proof.
  split; apply countable_intro; vm_compute;
    repeat (constructor; [by eexists|]); constructor.
Qed.

Lemma blank_jobs_summarisable : summarisable blank_jobs.
Proof.
  split; apply countable_intro; vm_compute;
    repeat (constructor; [by eexists|]); constructor.
Qed.

Lemma twin_company_jobs_not_summarisable : ¬ summarisable twin_company_jobs.
Proof. intros [[H _] _]. vm_compute in H. lia. Qed.

Lemma listed_company_jobs_not_summarisable : ¬ summarisable listed_company_jobs.
Proof.
  intros [[_ H] _].
  destruct (H 1%nat [Hashable (SStr "Analyst"); CList [VStr "B"; VStr "C"]])
    as [a Ha]; [done|right; left|done].
Qed.





Lemma no_rows_reported_witness :
  no_jobs_result
    (Demo.jobspy_scraper (λ _, Return no_jobs) merge_sort_values defaults ∅)
  ∧ no_jobs_result
      (Tool.scrape_job_listings (λ _, Return no_jobs) merge_sort_values
         defaults []).1.
Proof.
  destruct (no_rows_reported (λ _, Return no_jobs) merge_sort_values defaults ∅ []
              no_jobs eq_refl) as [Hd Ht].
  split; [apply Hd; reflexivity|apply (Ht _ eq_refl); reflexivity].
Defined.

Lemma rows_reported_witness :
  lists_rows five_jobs
    (Demo.jobspy_scraper (λ _, Return five_jobs) merge_sort_values data_scientist ∅)
  ∧ lists_rows five_jobs
      (Tool.scrape_job_listings (λ _, Return five_jobs) merge_sort_values
         data_scientist []).1.
Proof.
  assert (rows five_jobs ≠ []) as Hrows by (simpl; discriminate).
  assert (columns five_jobs ≠ []) as Hcols by (simpl; discriminate).
  destruct (rows_reported (λ _, Return five_jobs) merge_sort_values data_scientist
              ∅ [] five_jobs Hrows Hcols five_jobs_summarisable) as [Hd Ht].
  split; [apply Hd; reflexivity|apply (Ht _ eq_refl); reflexivity].
Defined.

(** C4 as stated fails.  A table of two rows without columns is empty
    for pandas, so [count] is 0 and [data] is empty.  A table of two rows
    in which two columns have the label ["company"], and one whose
    company is a list in one row, cannot be summarised: the result is a
    failure, with neither [count] nor [data]. *)
Lemma blank_rows_not_listed :
  (len two_blank_rows = 2%nat
   ∧ result_field "count"
       (Demo.jobspy_scraper (λ _, Return two_blank_rows) merge_sort_values defaults ∅)
     = Some (VInt 0)
   ∧ ¬ lists_rows two_blank_rows
         (Demo.jobspy_scraper (λ _, Return two_blank_rows) merge_sort_values
            defaults ∅))
  ∧ (len twin_company_jobs = 2%nat
     ∧ columns twin_company_jobs = ["title"; "company"; "company"]
     ∧ Demo.jobspy_scraper (λ _, Return twin_company_jobs) merge_sort_values
         defaults ∅
       = Return (VDict [ (SStr "success", VBool false);
           (SStr "error", VStr "cannot convert the series to <class 'int'>") ])
     ∧ ¬ lists_rows twin_company_jobs
           (Demo.jobspy_scraper (λ _, Return twin_company_jobs) merge_sort_values
              defaults ∅))
  ∧ (len listed_company_jobs = 2%nat
     ∧ Demo.jobspy_scraper (λ _, Return listed_company_jobs) merge_sort_values
         defaults ∅
       = Return (VDict [ (SStr "success", VBool false);
           (SStr "error", VStr "unhashable type: 'list'") ])
     ∧ ¬ lists_rows listed_company_jobs
           (Demo.jobspy_scraper (λ _, Return listed_company_jobs) merge_sort_values
              defaults ∅)).
Proof.
  split_and!; try (vm_compute; reflexivity).
  all: intros (H1 & H2 & _); vm_compute in H1, H2; discriminate.
Qed.

Lemma metadata_reported_witness :
  summarises city_jobs
    (Demo.jobspy_scraper (λ _, Return city_jobs) merge_sort_values defaults ∅)
  ∧ summarises city_jobs
      (Tool.scrape_job_listings (λ _, Return city_jobs) merge_sort_values
         defaults []).1.
Proof.
  assert (rows city_jobs ≠ []) as Hrows by (simpl; discriminate).
  assert (columns city_jobs ≠ []) as Hcols by (simpl; discriminate).
  destruct (metadata_reported (λ _, Return city_jobs) merge_sort_values defaults ∅ []
              city_jobs merge_sort_values_perm merge_sort_values_desc Hrows Hcols
              city_jobs_summarisable)
    as [Hd Ht].
  split; [apply Hd; reflexivity|apply (Ht _ eq_refl); reflexivity].
Defined.

(** C5 as stated fails.  On its own example: companies A, A, B, C, D are
    four distinct companies, not three.  On missing values: with the
    companies A, missing, B, A the count is 2, although the column has
    three distinct values, and with the cities Austin, Boston, Austin,
    missing the mapping has no entry for the missing one.  And on tables
    that cannot be summarised: with two columns of the label ["company"],
    or a company that is a list, the result is a failure and has no
    metadata. *)
Lemma five_jobs_four_companies :
  ((column_values five_jobs "company"
      [SStr "A"; SStr "A"; SStr "B"; SStr "C"; SStr "D"]
    ∧ "city" ∉ columns five_jobs)
   ∧ metadata_field "unique_companies"
       (Demo.jobspy_scraper (λ _, Return five_jobs) merge_sort_values data_scientist ∅)
     = Some (VInt 4)
   ∧ metadata_field "unique_companies"
       (Demo.jobspy_scraper (λ _, Return five_jobs) merge_sort_values data_scientist ∅)
     ≠ Some (VInt 3))
  ∧ (column_values city_jobs "company" [SStr "A"; SNone; SStr "B"; SStr "A"]
     ∧ column_values city_jobs "city"
         [SStr "Austin"; SStr "Boston"; SStr "Austin"; SNone]
     ∧ length (unique [SStr "A"; SNone; SStr "B"; SStr "A"]) = 3%nat
     ∧ metadata_field "unique_companies"
         (Demo.jobspy_scraper (λ _, Return city_jobs) merge_sort_values defaults ∅)
       = Some (VInt 2)
     ∧ metadata_field "top_locations"
         (Demo.jobspy_scraper (λ _, Return city_jobs) merge_sort_values defaults ∅)
       = Some (VDict [ (SStr "Austin", VInt 2); (SStr "Boston", VInt 1) ]))
  ∧ (rows twin_company_jobs ≠ []
     ∧ "company" ∈ columns twin_company_jobs
     ∧ result_field "metadata"
         (Demo.jobspy_scraper (λ _, Return twin_company_jobs) merge_sort_values
            defaults ∅)
       = None
     ∧ ¬ summarises twin_company_jobs
           (Demo.jobspy_scraper (λ _, Return twin_company_jobs) merge_sort_values
              defaults ∅))
  ∧ (rows listed_company_jobs ≠ []
     ∧ "company" ∈ columns listed_company_jobs
     ∧ result_field "metadata"
         (Demo.jobspy_scraper (λ _, Return listed_company_jobs) merge_sort_values
            defaults ∅)
       = None
     ∧ ¬ summarises listed_company_jobs
           (Demo.jobspy_scraper (λ _, Return listed_company_jobs) merge_sort_values
              defaults ∅)).
Proof.
  assert (∀ df : DataFrame, "company" ∈ columns df →
            metadata_field "unique_companies"
              (Demo.jobspy_scraper (λ _, Return df) merge_sort_values defaults ∅)
            = None →
            ¬ summarises df
                (Demo.jobspy_scraper (λ _, Return df) merge_sort_values defaults ∅))
    as Hnot.
  { intros df Hin Hm (H & _). destruct (H Hin) as (s & n & _ & Hn & _). congruence. }
  split_and!; try (vm_compute; reflexivity); try (vm_compute; discriminate).
  - exists 1%nat. split; [done|]. vm_compute. repeat constructor.
  - intros Hin. apply (bool_decide_pack _) in Hin. vm_compute in Hin. exact Hin.
  - exists 0%nat. split; [done|]. vm_compute. repeat constructor.
  - exists 1%nat. split; [done|]. vm_compute. repeat constructor.
  - apply (bool_decide_unpack _). vm_compute. exact I.
  - apply Hnot; [|vm_compute; reflexivity].
    apply (bool_decide_unpack _). vm_compute. exact I.
  - apply (bool_decide_unpack _). vm_compute. exact I.
  - apply Hnot; [|vm_compute; reflexivity].
    apply (bool_decide_unpack _). vm_compute. exact I.
Qed.



Lemma surfaces_agree_witness :
  (Tool.scrape_job_listings (λ _, Return five_jobs) merge_sort_values
     data_scientist []).1
  = Demo.jobspy_scraper (λ _, Return five_jobs) merge_sort_values data_scientist ∅.
Proof.
  apply (surfaces_agree (λ _, Return five_jobs) merge_sort_values data_scientist []).
  simpl. repeat constructor. by exists "indeed".
Defined.

(** C9 as stated fails: with a [Site] member in the site list the plain
    function forwards it to the scrape, while the method fails on its
    first log line. *)
Lemma site_enum_results_differ :
  Demo.jobspy_scraper (λ _, Return no_jobs) merge_sort_values site_enum ∅
  = Return (VDict [ (SStr "success", VBool true); (SStr "count", VInt 0);
                    (SStr "data", VList []);
                    (SStr "message", VStr "No jobs found. Try adjusting your filters.") ])
  ∧ (Tool.scrape_job_listings (λ _, Return no_jobs) merge_sort_values site_enum []).1
    = Return (VDict [ (SStr "success", VBool false);
        (SStr "error", VStr "sequence item 0: expected str instance, Site found") ])
  ∧ (Tool.scrape_job_listings (λ _, Return no_jobs) merge_sort_values site_enum []).1
    ≠ Demo.jobspy_scraper (λ _, Return no_jobs) merge_sort_values site_enum ∅.
Proof.
  split_and!; [vm_compute; reflexivity..|]. vm_compute. discriminate.
Qed.



(* ===================================================================== *)
(** ** Further properties: the forwarded parameters *)
(* ===================================================================== *)

Lemma assemble_returned p lg params :
  (Tool.assemble p lg).1 = Return params → params = Tool.build_params p.
Proof.
  rewrite assemble_search_line. destruct (Tool.search_line p); [|done].
  by intros [= <-].
Qed.










(* ===================================================================== *)
(** ** Further properties: the result *)
(* ===================================================================== *)

Lemma column_values_elem_of df name s : column_values df name s → name ∈ columns df.
Proof. intros (i & Hi & _). by eapply list_elem_of_lookup_2. Qed.

Lemma column_values_length df name s :
  column_values df name s → length s = length (rows df).
Proof. intros (i & _ & H). symmetry. by eapply Forall2_length. Qed.

(** A key that is new to a dictionary goes to its end. *)
Lemma dict_set_fresh k v d :
  Forall (λ kv, ¬ py_eq k kv.1) d → dict_set k v d = (d ++ [(k, v)])%list.
Proof.
  induction 1 as [|[k' v'] d Hk _ IH]; simpl; [done|].
  rewrite decide_False by done. by rewrite IH.
Qed.

Lemma foldl_dict_set (acc pairs : list (scalar * pyval)) :
  NoDup (hash_key <$> ((acc ++ pairs)%list).*1) →
  foldl (λ d kv, dict_set kv.1 kv.2 d) acc pairs = (acc ++ pairs)%list.
Proof.
  revert acc. induction pairs as [|[k v] pairs IH]; intros acc Hnd; simpl.
  - by rewrite app_nil_r.
  - rewrite dict_set_fresh.
    + rewrite IH; by rewrite <-app_assoc.
    + apply Forall_forall. intros [k' v'] Hin Heq. simpl in Heq.
      rewrite !fmap_app in Hnd. apply NoDup_app in Hnd as (_ & Hdisj & _).
      apply (Hdisj (hash_key k')).
      * apply list_elem_of_fmap. exists k'. split; [done|].
        apply list_elem_of_fmap. by exists (k', v').
      * unfold py_eq in Heq. rewrite <-Heq. simpl. left.
Qed.

(** With distinct labels a record has every label, in column order. *)
Lemma dict_of_zip cols (vals : list pyval) :
  NoDup cols → length vals = length cols →
  dict_of (zip (SStr <$> cols) vals) = zip (SStr <$> cols) vals.
Proof.
  intros Hnd Hlen. unfold dict_of. rewrite foldl_dict_set; [done|].
  simpl. rewrite fst_zip by (rewrite length_fmap; lia).
  rewrite <-list_fmap_compose. apply NoDup_fmap_2; [|done].
  intros a b. simpl. congruence.
Qed.

Lemma record_get cols row :
  NoDup cols → length row = length cols →
  ∀ j col, cols !! j = Some col →
    ∃ cell, row !! j = Some cell
            ∧ dict_get (SStr col) (zip (SStr <$> cols) (cell_value <$> row))
              = Some (cell_value cell).
Proof.
  intros Hnd. revert row.
  induction Hnd as [|c cols Hc Hnd IH]; intros row Hlen j col Hj; [done|].
  destruct row as [|x row]; [done|]. simpl in Hlen.
  destruct j as [|j]; simpl in *.
  - injection Hj as ->. exists x. split; [done|]. by rewrite decide_True.
  - destruct (IH row ltac:(lia) j col Hj) as (cell & Hcell & Hget).
    exists cell. split; [done|]. rewrite decide_False; [done|].
    unfold py_eq. simpl. intros [= ->]. apply Hc.
    by eapply list_elem_of_lookup_2.
Qed.

Lemma filter_all {A} (P : A → Prop) `{∀ x, Decision (P x)} (l : list A) :
  Forall P l → filter P l = l.
Proof.
  induction 1 as [|x l Hx _ IH]; [done|]. by rewrite filter_cons_True, IH.
Qed.

Lemma filter_none {A} (P : A → Prop) `{∀ x, Decision (P x)} (l : list A) :
  Forall (λ x, ¬ P x) l → filter P l = [].
Proof.
  induction 1 as [|x l Hx _ IH]; [done|]. by rewrite filter_cons_False.
Qed.

Lemma occurrences_cons c x s :
  occurrences c (x :: s)
  = ((if decide (py_eq x c) then 1%nat else 0%nat) + occurrences c s)%nat.
Proof. unfold occurrences. rewrite filter_cons. by destruct (decide (py_eq x c)). Qed.

Lemma occurrences_pos c s : c ∈ s → (1 ≤ occurrences c s)%nat.
Proof.
  induction 1 as [c s|c x s _ IH]; rewrite occurrences_cons.
  - rewrite decide_True by done. lia.
  - lia.
Qed.

Lemma sum_occurrences_cons l x s :
  sum_list_with (λ c, occurrences c (x :: s)) l
  = (sum_list_with (λ c, if decide (py_eq x c) then 1%nat else 0%nat) l
     + sum_list_with (λ c, occurrences c s) l)%nat.
Proof.
  induction l as [|c l IH]; [done|]. simpl. rewrite IH, occurrences_cons. lia.
Qed.

(** Among values with distinct keys at most one equals [x]. *)
Lemma sum_matches l x :
  NoDup (hash_key <$> l) →
  sum_list_with (λ c, if decide (py_eq x c) then 1%nat else 0%nat) l
  = if decide (hash_key x ∈ hash_key <$> l) then 1%nat else 0%nat.
Proof.
  induction l as [|c l IH]; [done|]. rewrite fmap_cons.
  intros [Hc Hnd]%NoDup_cons. simpl. rewrite (IH Hnd).
  destruct (decide (py_eq x c)) as [Heq|Hne].
  - unfold py_eq in Heq. rewrite (decide_True (P := _ ∈ _ :: _)) by (rewrite Heq; left).
    rewrite decide_False; [done|]. by rewrite Heq.
  - destruct (decide (hash_key x ∈ hash_key <$> l)) as [Hin|Hin].
    + by rewrite decide_True by by right.
    + rewrite decide_False; [done|]. by intros [?|?]%elem_of_cons.
Qed.

Lemma sum_occurrences l s :
  NoDup (hash_key <$> l) →
  sum_list_with (λ c, occurrences c s) l
  = length (filter (λ x, hash_key x ∈ hash_key <$> l) s).
Proof.
  intros Hnd. induction s as [|x s IH].
  - simpl. induction l as [|c l IHl]; [done|]. simpl. apply IHl.
    rewrite fmap_cons in Hnd. by apply NoDup_cons in Hnd as [_ ?].
  - rewrite sum_occurrences_cons, IH, sum_matches, filter_cons by done.
    by destruct (decide (hash_key x ∈ hash_key <$> l)).
Qed.

(** Every value counts under one distinct value. *)
Lemma sum_occurrences_unique s :
  sum_list_with (λ c, occurrences c s) (unique s) = length s.
Proof.
  rewrite sum_occurrences by apply NoDup_unique. f_equal.
  apply filter_all, Forall_forall. intros x Hx.
  destruct (unique_covers x s Hx) as (c & Hc & Heq).
  apply list_elem_of_fmap. exists c. split; [by symmetry|done].
Qed.

Lemma length_unique s : (length (unique s) ≤ length s)%nat.
Proof.
  induction s as [|x s IH]; simpl; [done|].
  pose proof (length_filter (λ y, ¬ py_eq y x) (unique s)). lia.
Qed.

Lemma length_dropna s : (length (dropna s) ≤ length s)%nat.
Proof. apply length_filter. Qed.

Lemma dropna_blank s : Forall (λ c, c = SNone) s → dropna s = [].
Proof.
  intros H. unfold dropna. apply filter_none.
  eapply Forall_impl; [exact H|]. by intros c -> ?.
Qed.

Lemma sum_take {A} (f : A → nat) n (l : list A) :
  (sum_list_with f (take n l) ≤ sum_list_with f l)%nat.
Proof. rewrite <-(take_drop n l) at 2. rewrite sum_list_with_app. lia. Qed.

Section counts_sums.
Variable sort_values : list (scalar * nat) → list (scalar * nat).
Hypothesis sort_values_perm : ∀ l, sort_values l ≡ₚ l.

Lemma sum_counts s :
  sum_list_with snd (counts sort_values s) = length (dropna s).
Proof.
  unfold counts. rewrite sort_values_perm.
  rewrite <-(sum_occurrences_unique (dropna s)).
  generalize (unique (dropna s)). intros l.
  induction l as [|c l IH]; [done|]. simpl. f_equal. exact IH.
Qed.

Lemma length_counts s :
  length (counts sort_values s) = count_unique s.
Proof.
  unfold counts, count_unique. by rewrite sort_values_perm, length_fmap.
Qed.

Lemma counts_pos s :
  Forall (λ kc : scalar * nat, (1 ≤ kc.2)%nat) (counts sort_values s).
Proof.
  apply Forall_forall. intros [c n] [Hc ->]%(elem_of_counts _ sort_values_perm).
  simpl. by apply occurrences_pos, elem_of_unique.
Qed.
End counts_sums.

Section result_facts.
Variable scrape_jobs : gmap string pyval → outcome DataFrame.
Variable sort_values : list (scalar * nat) → list (scalar * nat).

Abbreviation jobspy_scraper := (Demo.jobspy_scraper scrape_jobs sort_values).
Abbreviation scrape_job_listings := (Tool.scrape_job_listings scrape_jobs sort_values).

(** The plain function, by cases of the scrape and of the table. *)
Lemma jobspy_scraper_cases p kwargs :
  (∃ e, scrape_jobs (Demo.forwarded p kwargs) = Raise e
        ∧ jobspy_scraper p kwargs
          = if exc_is_Exception e then Return (Demo.failure e) else Raise e)
  ∨ (∃ df, scrape_jobs (Demo.forwarded p kwargs) = Return df
           ∧ empty df = true
           ∧ jobspy_scraper p kwargs
             = Return (VDict [ (SStr "success", VBool true);
                               (SStr "count", VInt 0);
                               (SStr "data", VList []);
                               (SStr "message",
                                 VStr "No jobs found. Try adjusting your filters.") ]))
  ∨ (∃ df unique_companies top_locations,
       scrape_jobs (Demo.forwarded p kwargs) = Return df
       ∧ empty df = false
       ∧ summarisable df
       ∧ jobspy_scraper p kwargs
         = Return (VDict [ (SStr "success", VBool true);
                           (SStr "count", VInt (Z.of_nat (len df)));
                           (SStr "data", VList (to_dict_records df));
                           (SStr "metadata",
                             VDict [ (SStr "unique_companies", unique_companies);
                                     (SStr "top_locations", top_locations) ]) ]))
  ∨ (∃ df e,
       scrape_jobs (Demo.forwarded p kwargs) = Return df
       ∧ empty df = false
       ∧ ¬ summarisable df
       ∧ jobspy_scraper p kwargs = Return (Demo.failure e)).
Proof.
  destruct (scrape_jobs (Demo.forwarded p kwargs)) as [df|e] eqn:Hs.
  - right. rewrite (jobspy_scraper_returned _ _ _ _ _ Hs).
    destruct (empty df) eqn:He.
    + left. exists df. by rewrite shape_empty.
    + right.
      destruct (shape_cases sort_values df He)
        as [(Hsum & uc & tl & -> & _)|(Hsum & e & -> & _)].
      * left. by exists df, uc, tl.
      * right. by exists df, e.
  - left. exists e. split; [done|]. by apply jobspy_scraper_raised.
Qed.

(** The method returns what the plain function returns, or the failure of
    its first log line. *)
Lemma scrape_job_listings_cases p lg :
  (scrape_job_listings p lg).1 = jobspy_scraper p ∅
  ∨ ∃ e, Tool.search_line p = Raise e
         ∧ (scrape_job_listings p lg).1 = Return (Tool.failure e).
Proof.
  destruct (Tool.search_line p) as [line|e] eqn:Hl.
  - left. by eapply scrape_job_listings_logged.
  - right. exists e. split; [done|]. by apply scrape_job_listings_line_raised.
Qed.

(** The metadata of a table that is not empty, column by column. *)
Lemma jobspy_scraper_metadata p kwargs df :
  scrape_jobs (Demo.forwarded p kwargs) = Return df →
  empty df = false → summarisable df →
  (∀ s, column_values df "company" s →
     metadata_field "unique_companies" (jobspy_scraper p kwargs)
     = Some (VInt (Z.of_nat (count_unique s))))
  ∧ ("company" ∉ columns df →
       metadata_field "unique_companies" (jobspy_scraper p kwargs) = Some VNone)
  ∧ (∀ s, column_values df "city" s →
       metadata_field "top_locations" (jobspy_scraper p kwargs)
       = Some (to_dict (head 10 (counts sort_values s))))
  ∧ ("city" ∉ columns df →
       metadata_field "top_locations" (jobspy_scraper p kwargs) = Some (VDict [])).
Proof.
  intros Hs He Hsum. rewrite (jobspy_scraper_returned _ _ _ _ _ Hs).
  destruct (shape_rows sort_values df He Hsum) as (uc & tl & -> & Huc & Htl).
  unfold has_column in Huc, Htl. destruct Hsum as [Cco Cci].
  change (metadata_field "unique_companies" _) with (Some uc).
  change (metadata_field "top_locations" _) with (Some tl).
  split_and!.
  - intros s Hv. rewrite bool_decide_eq_true_2 in Huc
      by by eapply column_values_elem_of.
    destruct Huc as (s' & Hv' & ->).
    by rewrite (column_values_unique _ _ _ _ Cco Hv Hv').
  - intros Hin. rewrite bool_decide_eq_false_2 in Huc by done. by subst.
  - intros s Hv. rewrite bool_decide_eq_true_2 in Htl
      by by eapply column_values_elem_of.
    destruct Htl as (s' & Hv' & ->).
    by rewrite (column_values_unique _ _ _ _ Cci Hv Hv').
  - intros Hin. rewrite bool_decide_eq_false_2 in Htl by done. by subst.
Qed.

(** The values under a label that can be counted. *)
Lemma column_values_exist df name :
  countable name df → name ∈ columns df → ∃ s, column_values df name s.
Proof.
  intros C Hin.
  destruct (getitem_cases name df)
    as [[_ ?]|[(_ & _ & s & Hv & _)|[(_ & ? & _)|(_ & ? & _)]]]; try done.
  by exists s.
Qed.

(** X4.  Whatever the scrape does, a result with [success] true has a
    [count] equal to the length of its [data], also for the table with
    rows and no column, whose [count] is 0. *)
Theorem count_is_length_of_data p kwargs lg :
  counts_data (jobspy_scraper p kwargs)
  ∧ counts_data (scrape_job_listings p lg).1.
Proof.
  assert (∀ kw, counts_data (jobspy_scraper p kw)) as Hdemo.
  { intros kw. unfold counts_data.
    destruct (jobspy_scraper_cases p kw)
      as [(e & _ & ->)|[(df & _ & _ & ->)|[(df & uc & tl & _ & _ & _ & ->)
         |(df & e & _ & _ & _ & ->)]]].
    - by destruct (exc_is_Exception e).
    - intros _. by exists [].
    - intros _. exists (to_dict_records df). split; [done|].
      unfold to_dict_records, len. by rewrite length_fmap.
    - by intros ?. }
  split; [apply Hdemo|].
  destruct (scrape_job_listings_cases p lg) as [->|(e & _ & ->)]; [apply Hdemo|].
  by intros ?.
Qed.

(** X5.  Every mapping a call returns has one of three key lists:
    [success, error] with [success] false; [success, count, data, message]
    with [count] 0; [success, count, data, metadata] with a positive
    [count].  No result mixes them. *)
Theorem result_has_one_shape p kwargs lg v :
  (jobspy_scraper p kwargs = Return v → one_of_three_shapes (Return v))
  ∧ ((scrape_job_listings p lg).1 = Return v → one_of_three_shapes (Return v)).
Proof.
  assert (∀ e, one_of_three_shapes (Return (Demo.failure e))) as Hfail.
  { intros e. left. split_and!; [done..|]. by eexists. }
  assert (∀ kw, jobspy_scraper p kw = Return v → one_of_three_shapes (Return v))
    as Hdemo.
  { intros kw Hv.
    destruct (jobspy_scraper_cases p kw)
      as [(e & _ & Hr)|[(df & _ & _ & Hr)|[(df & uc & tl & _ & He & _ & Hr)
         |(df & e & _ & _ & _ & Hr)]]];
      rewrite Hr in Hv.
    - destruct (exc_is_Exception e); [|done]. injection Hv as <-. apply Hfail.
    - injection Hv as <-. right. left. by repeat split.
    - injection Hv as <-. right. right. split_and!; [done..|].
      exists (Z.of_nat (len df)). split; [done|].
      unfold empty in He. apply orb_false_iff in He as [Hr' _].
      apply bool_decide_eq_false in Hr'. unfold len. lia.
    - injection Hv as <-. apply Hfail. }
  split; [apply Hdemo|].
  destruct (scrape_job_listings_cases p lg) as [->|(e & _ & ->)]; [apply Hdemo|].
  intros [= <-]. apply Hfail.
Qed.

(** X6.  For a table with at least one row and one column whose labels
    are distinct, and in which the cells under ["company"] and ["city"]
    are hashable, the mappings of [data] are the rows: the i-th mapping
    has the column labels as its keys, in the order of the columns, and
    gives under each label the cell the i-th row has in that column. *)
Theorem data_holds_the_rows p kwargs lg df :
  columns df ≠ [] → rows df ≠ [] → NoDup (columns df) → summarisable df →
  (scrape_jobs (Demo.forwarded p kwargs) = Return df →
     records_hold_rows df (jobspy_scraper p kwargs))
  ∧ (∀ params, (Tool.assemble p lg).1 = Return params →
       scrape_jobs params = Return df →
       records_hold_rows df (scrape_job_listings p lg).1).
Proof.
  intros Hcols Hrows Hnd Hsum.
  assert (∀ kw, scrape_jobs (Demo.forwarded p kw) = Return df →
                records_hold_rows df (jobspy_scraper p kw)) as Hdemo.
  { intros kw Hs. rewrite (jobspy_scraper_returned _ _ _ _ _ Hs).
    destruct (shape_rows sort_values df) as (uc & tl & -> & _); [|done|].
    { by apply empty_false. }
    exists (to_dict_records df). split; [done|]. intros i row Hrow.
    pose proof (frame_ok_spec df) as Hlen.
    assert (length row = length (columns df)) as Hl.
    { unfold well_formed in Hlen. rewrite Forall_forall in Hlen. apply Hlen.
      by eapply list_elem_of_lookup_2. }
    exists (zip (SStr <$> columns df) (cell_value <$> row)). split.
    { rewrite (to_dict_records_lookup _ _ _ Hrow). unfold record.
      by rewrite dict_of_zip by (by rewrite ?length_fmap). }
    split.
    - apply fst_zip. rewrite !length_fmap. lia.
    - intros j col Hcol. by apply record_get. }
  split; [apply Hdemo|].
  intros params [-> ->]%(scrape_job_listings_assembled scrape_jobs sort_values).
  apply Hdemo.
Qed.

(** X7.  For a table that is not empty and can be summarised the summary
    never exceeds the table: [unique_companies] is at most the number of rows, every
    count of [top_locations] is at least 1 and the counts add up to at
    most the number of rows. *)
Theorem metadata_within_rows p kwargs lg df :
  (∀ l, sort_values l ≡ₚ l) →
  rows df ≠ [] → columns df ≠ [] → summarisable df →
  (scrape_jobs (Demo.forwarded p kwargs) = Return df →
     metadata_bounded df (jobspy_scraper p kwargs))
  ∧ (∀ params, (Tool.assemble p lg).1 = Return params →
       scrape_jobs params = Return df →
       metadata_bounded df (scrape_job_listings p lg).1).
Proof.
  intros Hperm Hrows Hcols Hsum.
  pose proof (empty_false df Hrows Hcols) as He.
  assert (∀ kw, scrape_jobs (Demo.forwarded p kw) = Return df →
                metadata_bounded df (jobspy_scraper p kw)) as Hdemo.
  { intros kw Hs.
    destruct (jobspy_scraper_metadata p kw df Hs He Hsum) as (Hco & Hnco & Hci & Hnci).
    destruct Hsum as [Cco Cci]. split.
    - intros n Hn. destruct (decide ("company" ∈ columns df)) as [Hin|Hin].
      + destruct (column_values_exist _ _ Cco Hin) as [s Hv].
        rewrite (Hco s Hv) in Hn. injection Hn as <-.
        rewrite <-(column_values_length _ _ _ Hv).
        pose proof (length_unique (dropna s)). pose proof (length_dropna s).
        unfold count_unique. lia.
      + by rewrite (Hnco Hin) in Hn.
    - destruct (decide ("city" ∈ columns df)) as [Hin|Hin].
      + destruct (column_values_exist _ _ Cci Hin) as [s Hv].
        exists (head 10 (counts sort_values s)).
        split; [by apply Hci|].
        rewrite <-(column_values_length _ _ _ Hv). split.
        * pose proof (sum_take snd 10 (counts sort_values s)) as H.
          rewrite (sum_counts _ Hperm) in H.
          pose proof (length_dropna s). unfold head. lia.
        * apply Forall_take. by apply counts_pos.
      + exists []. split; [by apply Hnci|]. split; [simpl; lia|constructor]. }
  split; [apply Hdemo|].
  intros params [-> ->]%(scrape_job_listings_assembled scrape_jobs sort_values).
  apply Hdemo.
Qed.

(** X8.  For a table that is not empty and can be summarised
    [top_locations] has at most ten entries; when the cities of the table are at most ten distinct
    ones it has an entry for every city, with the number of rows of that
    city, and its counts add up to the number of rows that have a city.
    This holds for every order the sort gives to the counts. *)
Theorem top_locations_complete p kwargs lg df :
  (∀ l, sort_values l ≡ₚ l) →
  rows df ≠ [] → columns df ≠ [] → summarisable df →
  (scrape_jobs (Demo.forwarded p kwargs) = Return df →
     locations_complete df (jobspy_scraper p kwargs))
  ∧ (∀ params, (Tool.assemble p lg).1 = Return params →
       scrape_jobs params = Return df →
       locations_complete df (scrape_job_listings p lg).1).
Proof.
  intros Hperm Hrows Hcols Hsum.
  pose proof (empty_false df Hrows Hcols) as He.
  assert (∀ kw, scrape_jobs (Demo.forwarded p kw) = Return df →
                locations_complete df (jobspy_scraper p kw)) as Hdemo.
  { intros kw Hs s Hv.
    destruct (jobspy_scraper_metadata p kw df Hs He Hsum) as (_ & _ & Hci & _).
    exists (head 10 (counts sort_values s)).
    split; [by apply Hci|]. unfold head. split; [rewrite length_take; lia|].
    intros Hfew. specialize (Hfew _ (count_unique_distinct_count s)).
    rewrite take_ge by (rewrite (length_counts _ Hperm); lia).
    split; [|by apply sum_counts].
    intros c Hc Hne.
    destruct (unique_covers c (dropna s)) as (c' & Hc' & Heq);
      [by apply elem_of_dropna|].
    exists c'. split; [|done].
    apply (elem_of_counts _ Hperm). split; [done|].
    rewrite (occurrences_py_eq c c' _ Heq). by rewrite occurrences_dropna. }
  split; [apply Hdemo|].
  intros params [-> ->]%(scrape_job_listings_assembled scrape_jobs sort_values).
  apply Hdemo.
Qed.

(** X9.  For a table that is not empty and can be summarised, a
    ["company"] column that holds only missing values is summarised as 0 companies (not as
    [None], which stands for a table without that column), and a ["city"]
    column that holds only missing values as the empty mapping. *)
Theorem blank_columns p kwargs lg df :
  (∀ l, sort_values l ≡ₚ l) →
  rows df ≠ [] → columns df ≠ [] → summarisable df →
  (scrape_jobs (Demo.forwarded p kwargs) = Return df →
     blank_columns_summarised df (jobspy_scraper p kwargs))
  ∧ (∀ params, (Tool.assemble p lg).1 = Return params →
       scrape_jobs params = Return df →
       blank_columns_summarised df (scrape_job_listings p lg).1).
Proof.
  intros Hperm Hrows Hcols Hsum.
  pose proof (empty_false df Hrows Hcols) as He.
  assert (∀ kw, scrape_jobs (Demo.forwarded p kw) = Return df →
                blank_columns_summarised df (jobspy_scraper p kw)) as Hdemo.
  { intros kw Hs.
    destruct (jobspy_scraper_metadata p kw df Hs He Hsum) as (Hco & _ & Hci & _).
    split.
    - intros s Hg Hblank. rewrite (Hco s Hg). unfold count_unique.
      by rewrite dropna_blank.
    - intros s Hg Hblank. rewrite (Hci s Hg). unfold head, counts.
      rewrite dropna_blank by done. simpl.
      by rewrite (proj1 (Permutation_nil_r _) (Hperm [])). }
  split; [apply Hdemo|].
  intros params [-> ->]%(scrape_job_listings_assembled scrape_jobs sort_values).
  apply Hdemo.
Qed.
End result_facts.

(* ===================================================================== *)
(** ** Further properties: exceptions and the log *)
(* ===================================================================== *)

(** A name of at most [n] bytes is printed whole by ["%.ns"]. *)
Lemma substring_whole n s : (String.length s ≤ n)%nat → String.substring 0 n s = s.
Proof.
  revert n. induction s as [|a s IH]; intros n Hn; [by destruct n|].
  destruct n as [|n]; simpl in *; [lia|]. rewrite IH; [done|lia].
Qed.

Lemma str_items_first_bad k l i v :
  l !! i = Some v → (∀ s, v ≠ VStr s) → short_type_name v →
  (∀ j, (j < i)%nat → ∃ s, l !! j = Some (VStr s)) →
  str_items k l = Raise (TypeError (join_error (k + i) v)).
Proof.
  revert k i. induction l as [|x l IH]; intros k i Hi Hv Hshort Hbefore; [done|].
  destruct i as [|i]; simpl in Hi.
  - injection Hi as ->. rewrite Nat.add_0_r.
    assert (type_name v = tp_name v) as Hname by by apply substring_whole.
    unfold join_error. rewrite <-Hname.
    destruct v as [[| | |s]| | |]; try reflexivity. by destruct (Hv s).
  - destruct (Hbefore 0%nat ltac:(lia)) as [s [= ->]]. simpl.
    rewrite (IH (S k) i Hi Hv Hshort).
    + simpl. by rewrite Nat.add_succ_r.
    + intros j Hj. apply (Hbefore (S j)). lia.
Qed.

Lemma str_items_TypeError k l e :
  str_items k l = Raise e → exc_class e = "TypeError".
Proof.
  revert k. induction l as [|v l IH]; intros k; simpl; [done|].
  destruct v as [[| | |s]| | |]; try (intros [= <-]; done).
  destruct (str_items (S k) l) eqn:E; simpl; [done|].
  intros [= <-]. eauto.
Qed.

Lemma search_line_TypeError p e :
  Tool.search_line p = Raise e → exc_class e = "TypeError".
Proof.
  unfold Tool.search_line, str_join.
  destruct (str_items 0 (Tool.sites p)) eqn:E; simpl; [done|].
  intros [= <-]. by eapply str_items_TypeError.
Qed.

Section log_facts.
Variable scrape_jobs : gmap string pyval → outcome DataFrame.
Variable sort_values : list (scalar * nat) → list (scalar * nat).

Abbreviation jobspy_scraper := (Demo.jobspy_scraper scrape_jobs sort_values).
Abbreviation scrape_job_listings := (Tool.scrape_job_listings scrape_jobs sort_values).

(** A call of the method, step by step: what it returns and what it adds
    to the log. *)
Lemma scrape_job_listings_trace p lg :
  scrape_job_listings p lg
  = match Tool.search_line p with
    | Raise e =>
        (Return (Tool.failure e),
         (lg ++ [(ERROR, ("❌ JobSpy scraping failed: " ++ exc_str e)%string)])%list)
    | Return line =>
        match scrape_jobs (Tool.build_params p) with
        | Raise e =>
            if exc_is_Exception e
            then (Return (Tool.failure e),
                  (lg ++ [(INFO, line);
                          (ERROR, ("❌ JobSpy scraping failed: "
                                   ++ exc_str e)%string)])%list)
            else (Raise e, (lg ++ [(INFO, line)])%list)
        | Return df =>
            match Demo.shape sort_values df with
            | Return v =>
                (Return v,
                 (lg ++ [(INFO, line);
                         if empty df
                         then (WARNING, "No jobs found for given parameters.")
                         else (INFO, ("✅ Found " ++ nat_str (len df)
                                      ++ " jobs for '" ++ search_term p
                                      ++ "'")%string)])%list)
            | Raise e =>
                (Return (Tool.failure e),
                 (lg ++ [(INFO, line);
                         (INFO, ("✅ Found " ++ nat_str (len df) ++ " jobs for '"
                                 ++ search_term p ++ "'")%string);
                         (ERROR, ("❌ JobSpy scraping failed: "
                                  ++ exc_str e)%string)])%list)
            end
        end
    end.
Proof.
  unfold Tool.scrape_job_listings, try_except_logged, Tool.body, Tool.assemble,
    Tool.handler.
  unfold mbind at 1 2 3 4 5, logged_bind, lift, emit, mret, logged_ret.
  destruct (Tool.search_line p) as [line|e] eqn:Hl; simpl.
  - destruct (scrape_jobs (Tool.build_params p)) as [df|e]; simpl.
    + rewrite shape_logged.
      destruct (Demo.shape sort_values df) as [v|e] eqn:Hs;
        [by rewrite <-?app_assoc|].
      destruct (shape_raised _ _ _ Hs) as (-> & -> & _).
      by rewrite <-!app_assoc.
    + destruct (exc_is_Exception e); [|done]. simpl. by rewrite <-?app_assoc.
  - by rewrite (search_line_raise _ _ Hl).
Qed.

(** X10.  An exception of the scrape that is no instance of [Exception]
    leaves both surfaces unchanged; the method has then written its first
    log line and no [ERROR] record. *)
Theorem other_exceptions_propagate p kwargs lg e :
  exc_is_Exception e = false →
  (scrape_jobs (Demo.forwarded p kwargs) = Raise e →
     jobspy_scraper p kwargs = Raise e)
  ∧ (∀ params, (Tool.assemble p lg).1 = Return params →
       scrape_jobs params = Raise e →
       ∃ line, Tool.search_line p = Return line
               ∧ scrape_job_listings p lg = (Raise e, (lg ++ [(INFO, line)])%list)).
Proof.
  intros He. split.
  - intros Hs. by rewrite (jobspy_scraper_raised _ _ _ _ _ Hs), He.
  - intros params Ha. pose proof (assemble_returned _ _ _ Ha) as ->.
    rewrite assemble_search_line in Ha. intros Hs.
    rewrite scrape_job_listings_trace.
    destruct (Tool.search_line p) as [line|]; [|done].
    exists line. split; [done|]. by rewrite Hs, He.
Qed.

(** X11.  A call of the method keeps the records that were in the log and
    adds one, two or three; what it returns and what it adds do not depend
    on the log it started with.  It adds three exactly when the scrape
    has returned a table that is not empty and cannot be summarised: the
    "Found" record is then followed by the [ERROR] record.  The added
    records tell the result: an [ERROR] record exactly with a failure,
    carrying its text; the [WARNING] record exactly with the
    "No jobs found" result; the number of the "Found" record is the
    [count] of a result that has one. *)
Theorem log_follows_result p :
  ∃ o added,
    (∀ lg, scrape_job_listings p lg = (o, (lg ++ added)%list))
    ∧ (1 ≤ length added ≤ 3)%nat
    ∧ (length added = 3%nat
       ↔ ∃ line df, Tool.search_line p = Return line
                    ∧ scrape_jobs (Tool.build_params p) = Return df
                    ∧ rows df ≠ [] ∧ columns df ≠ [] ∧ ¬ summarisable df)
    ∧ log_tells_result p added o.
Proof.
  destruct (Tool.search_line p) as [line|e] eqn:Hl.
  2:{ eexists _, _. split; [intros lg; rewrite scrape_job_listings_trace, Hl; reflexivity|].
      split; [simpl; lia|].
      split; [split; [done|by intros (? & ? & ? & _)]|]. split_and!.
      - intros m. rewrite list_elem_of_singleton. split.
        + intros [= ->]. by eexists.
        + intros (text & [= <-] & ->). done.
      - rewrite list_elem_of_singleton. split; [done|by intros [? ?]].
      - by intros m [=]%list_elem_of_singleton.
      - by intros n _ [? ?]. }
  destruct (scrape_jobs (Tool.build_params p)) as [df|e] eqn:Hs.
  2:{ destruct (exc_is_Exception e) eqn:He.
      - eexists _, _. split.
        { intros lg. rewrite scrape_job_listings_trace, Hl, Hs, He. reflexivity. }
        split; [simpl; lia|].
        split; [split; [done|by intros (? & ? & _ & ? & _)]|]. split_and!.
        + intros m. rewrite !elem_of_cons, elem_of_nil. split.
          * intros [[=]|[[= ->]|[]]]. by eexists.
          * intros (text & [= <-] & ->). auto.
        + rewrite !elem_of_cons, elem_of_nil. split; [by intros [[=]|[[=]|[]]]|].
          by intros [? ?].
        + intros m. rewrite !elem_of_cons, elem_of_nil. by intros [[=]|[[=]|[]]].
        + by intros n _ [? ?].
      - eexists _, _. split.
        { intros lg. rewrite scrape_job_listings_trace, Hl, Hs, He. reflexivity. }
        split; [simpl; lia|].
        split; [split; [done|by intros (? & ? & _ & ? & _)]|]. split_and!.
        + intros m. rewrite list_elem_of_singleton. split; [by intros [=]|].
          by intros (text & ? & _).
        + rewrite list_elem_of_singleton. split; [by intros [=]|by intros [? ?]].
        + by intros m [=]%list_elem_of_singleton.
        + by intros n _ [? ?]. }
  destruct (Demo.shape sort_values df) as [v|e] eqn:Hv.
  2:{ destruct (shape_raised _ _ _ Hv) as (_ & [Hrows Hcols]%empty_false_inv & Hsum).
      eexists _, _. split.
      { intros lg. rewrite scrape_job_listings_trace, Hl, Hs, Hv. reflexivity. }
      split; [simpl; lia|].
      split; [split; [intros _; by exists line, df|done]|]. split_and!.
      - intros m. rewrite !elem_of_cons, elem_of_nil. split.
        + intros [[=]|[[=]|[[= ->]|[]]]]. by eexists.
        + intros (text & [= <-] & ->). auto.
      - rewrite !elem_of_cons, elem_of_nil.
        split; [by intros [[=]|[[=]|[[=]|[]]]]|]. by intros [? ?].
      - intros m. rewrite !elem_of_cons, elem_of_nil.
        by intros [[=]|[[=]|[[=]|[]]]].
      - by intros n _ [? ?]. }
  eexists _, _. split.
  { intros lg. rewrite scrape_job_listings_trace, Hl, Hs, Hv. reflexivity. }
  split; [simpl; lia|].
  split.
  { split; [done|]. intros (line' & df' & _ & [= <-] & Hrows & Hcols & Hsum).
    destruct (shape_fails sort_values df (empty_false df Hrows Hcols) Hsum)
      as (e & He' & _). congruence. }
  destruct (empty df) eqn:He.
  - rewrite shape_empty in Hv by done. injection Hv as <-. split_and!.
    + intros m. rewrite !elem_of_cons, elem_of_nil. split.
      * by intros [[=]|[[=]|[]]].
      * by intros (text & ? & _).
    + rewrite !elem_of_cons, elem_of_nil. split; [by eexists|auto].
    + intros m. rewrite !elem_of_cons, elem_of_nil. by intros [[=]|[[= ->]|[]]].
    + by intros n _ [? ?].
  - destruct (shape_cases sort_values df He)
      as [(_ & uc & tl & Hr & _)|(_ & e & Hr & _)]; rewrite Hr in Hv; [|done].
    injection Hv as <-. split_and!.
    + intros m. rewrite !elem_of_cons, elem_of_nil. split.
      * by intros [[=]|[[=]|[]]].
      * by intros (text & ? & _).
    + rewrite !elem_of_cons, elem_of_nil. split; [by intros [[=]|[[=]|[]]]|].
      by intros [? ?].
    + intros m. rewrite !elem_of_cons, elem_of_nil. by intros [[=]|[[=]|[]]].
    + intros n [= ->%(inj Z.of_nat)] _. rewrite !elem_of_cons. auto.
Qed.

(** X16.  A table that is not empty and cannot be summarised, because
    the label ["company"] or ["city"] is on two or more columns or a cell
    under one of them is not hashable, gives a failure on both surfaces,
    with the text of the exception of pandas; the method has then written
    the "Found" record before the [ERROR] record.  So a result that has
    [metadata] comes from a table that can be summarised. *)
Theorem unsummarisable_table_fails p kwargs lg df :
  rows df ≠ [] → columns df ≠ [] →
  (scrape_jobs (Demo.forwarded p kwargs) = Return df →
     (¬ summarisable df → failed (jobspy_scraper p kwargs))
     ∧ (is_Some (result_field "metadata" (jobspy_scraper p kwargs)) →
          summarisable df))
  ∧ (∀ params, (Tool.assemble p lg).1 = Return params →
       scrape_jobs params = Return df →
       ¬ summarisable df →
       ∃ line text,
         Tool.search_line p = Return line
         ∧ scrape_job_listings p lg
           = (Return (VDict [ (SStr "success", VBool false);
                              (SStr "error", VStr text) ]),
              (lg ++ [ (INFO, line);
                       (INFO, ("✅ Found " ++ nat_str (length (rows df))
                               ++ " jobs for '" ++ search_term p ++ "'")%string);
                       (ERROR, ("❌ JobSpy scraping failed: " ++ text)%string) ])%list)).
Proof.
  intros Hrows Hcols. pose proof (empty_false df Hrows Hcols) as He. split.
  - intros Hs. rewrite (jobspy_scraper_returned _ _ _ _ _ Hs).
    destruct (shape_cases sort_values df He)
      as [(Hsum & uc & tl & -> & _)|(Hsum & e & -> & _)].
    + split; [done|]. by intros _.
    + split; [intros _; by eexists|]. by intros [? ?].
  - intros params Ha Hs Hsum. pose proof (assemble_returned _ _ _ Ha) as ->.
    rewrite assemble_search_line in Ha.
    destruct (Tool.search_line p) as [line|] eqn:Hl; [|done].
    destruct (shape_fails sort_values df He Hsum) as (e & Hr & _).
    exists line, (exc_str e). split; [done|].
    by rewrite scrape_job_listings_trace, Hl, Hs, Hr.
Qed.

(** X12.  With a site list whose first item that is no [str] is item [i],
    the method fails before the scrape: whatever the scrape would do, it
    returns the [TypeError] of [str.join] that names item [i] and the type
    of the item (by its [tp_name], here of at most 80 bytes), and logs
    that text as its only record. *)
Theorem bad_site_stops_the_call p lg l i v :
  site_name p = Some l →
  l !! i = Some v → (∀ s, v ≠ VStr s) → short_type_name v →
  (∀ j, (j < i)%nat → ∃ s, l !! j = Some (VStr s)) →
  scrape_job_listings p lg
  = (Return (VDict [ (SStr "success", VBool false);
                     (SStr "error", VStr (join_error i v)) ]),
     (lg ++ [(ERROR, ("❌ JobSpy scraping failed: " ++ join_error i v)%string)])%list).
Proof.
  intros Hsite Hi Hv Hshort Hbefore. rewrite scrape_job_listings_trace.
  unfold Tool.search_line, str_join, Tool.sites. rewrite Hsite.
  by rewrite (str_items_first_bad 0 l i v Hi Hv Hshort Hbefore).
Qed.

(** X13.  The two surfaces differ only through the site list: when the
    method does not return what the plain function returns without
    overrides, the site list has an item that is no [str], and the method
    has returned the [TypeError] of its first log line as a failure. *)
Theorem surfaces_differ_only_on_sites p lg :
  (scrape_job_listings p lg).1 ≠ jobspy_scraper p ∅ →
  ¬ sites_are_str p
  ∧ ∃ e, exc_class e = "TypeError"
         ∧ (scrape_job_listings p lg).1
           = Return (VDict [ (SStr "success", VBool false);
                             (SStr "error", VStr (exc_str e)) ]).
Proof.
  intros Hne.
  destruct (scrape_job_listings_cases scrape_jobs sort_values p lg)
    as [Heq|(e & Hl & Hr)]; [done|].
  split.
  - intros [line Hline]%search_line_ok. congruence.
  - exists e. split; [|done]. by eapply search_line_TypeError.
Qed.
End log_facts.


(* ===================================================================== *)
(** ** Further properties: the constructor and the logger *)
(* ===================================================================== *)

Lemma init_logger loggers :
  ∃ l, Tool.__init__ loggers !! "jobspy_scraper_tool" = Some l
       ∧ handlers l ≠ []
       ∧ ((∀ l0, loggers !! "jobspy_scraper_tool" = Some l0 → handlers l0 = []) →
            l = {| handlers :=
                     [ {| formatter := "%(levelname)s | %(asctime)s | %(message)s" |} ];
                   level_no := 20 |}).
Proof.
  unfold Tool.__init__, getLogger.
  destruct (loggers !! "jobspy_scraper_tool") as [l|] eqn:Hm.
  - destruct (handlers l) eqn:Hh.
    + eexists. rewrite lookup_insert_eq. split; [done|]. split; [done|].
      by intros _.
    + exists l. split; [done|]. split; [by rewrite Hh|].
      intros H. by rewrite (H l eq_refl) in Hh.
  - simpl. eexists. rewrite lookup_insert_eq. split; [done|]. split; [done|].
    by intros _.
Qed.

(** X14.  Constructing the tool configures its logger once: a second
    construction, and any further one, changes nothing, so the logger
    never gets a second handler from it.  After a construction the logger
    exists and has a handler; if it had none before, it has exactly the
    one stream handler and the level [INFO].  No other logger is touched. *)
Theorem logger_configured_once loggers :
  (∀ n, Nat.iter (S n) Tool.__init__ loggers = Tool.__init__ loggers)
  ∧ (∃ l, Tool.__init__ loggers !! "jobspy_scraper_tool" = Some l
          ∧ handlers l ≠ []
          ∧ ((∀ l0, loggers !! "jobspy_scraper_tool" = Some l0 → handlers l0 = []) →
               l = {| handlers :=
                        [ {| formatter := "%(levelname)s | %(asctime)s | %(message)s" |} ];
                      level_no := 20 |}))
  ∧ (∀ name, name ≠ "jobspy_scraper_tool" →
       Tool.__init__ loggers !! name = loggers !! name).
Proof.
  assert (∀ m, Tool.__init__ (Tool.__init__ m) = Tool.__init__ m) as Hidem.
  { intros m. unfold Tool.__init__ at 2 3. unfold getLogger.
    destruct (m !! "jobspy_scraper_tool") as [l|] eqn:Hm;
      [destruct (handlers l) eqn:Hh|]; simpl;
      unfold Tool.__init__, getLogger;
      rewrite ?lookup_insert_eq, ?Hm, ?Hh; done. }
  split_and!.
  - induction n as [|n IH]; [done|]. rewrite Nat.iter_succ, IH. apply Hidem.
  - apply init_logger.
  - intros name Hne. unfold Tool.__init__, getLogger.
    destruct (loggers !! "jobspy_scraper_tool") as [l|] eqn:Hm.
    + destruct (handlers l); [by rewrite lookup_insert_ne|done].
    + simpl. by rewrite !lookup_insert_ne.
Qed.

(** X15.  If the logger had no handler when the tool was constructed,
    the [info], [warning] and [error] calls of the method pass the level
    test whatever the level of the root logger.  A logger that had a
    handler is left as it was, with its level. *)
Theorem logger_level_after_construction loggers :
  ((∀ l0, loggers !! "jobspy_scraper_tool" = Some l0 → handlers l0 = []) →
     ∃ l, Tool.__init__ loggers !! "jobspy_scraper_tool" = Some l
          ∧ ∀ root_level lvl, isEnabledFor root_level l lvl = true)
  ∧ (∀ l0, loggers !! "jobspy_scraper_tool" = Some l0 → handlers l0 ≠ [] →
       Tool.__init__ loggers = loggers).
Proof.
  split.
  - intros Hnone.
    destruct (init_logger loggers) as (l & Hl & _ & Hfresh).
    exists l. split; [done|]. rewrite (Hfresh Hnone).
    intros root_level lvl. by destruct lvl.
  - intros l0 Hl0 Hh. unfold Tool.__init__, getLogger. rewrite Hl0.
    by destruct (handlers l0).
Qed.

(** ** The further properties on the sample inputs *)





Lemma result_has_one_shape_witness :
  one_of_three_shapes
    (Demo.jobspy_scraper (λ _, Return five_jobs) merge_sort_values data_scientist ∅).
Proof.
  destruct (result_has_one_shape (λ _, Return five_jobs) merge_sort_values
              data_scientist ∅ []
              (VDict [ (SStr "success", VBool true); (SStr "count", VInt 5);
                       (SStr "data", VList (to_dict_records five_jobs));
                       (SStr "metadata",
                         VDict [ (SStr "unique_companies", VInt 4);
                                 (SStr "top_locations", VDict []) ]) ]))
    as [Hd _].
  rewrite jobspy_scraper_five_jobs. apply Hd. vm_compute. reflexivity.
Defined.

Lemma data_holds_the_rows_witness :
  records_hold_rows five_jobs
    (Demo.jobspy_scraper (λ _, Return five_jobs) merge_sort_values data_scientist ∅)
  ∧ records_hold_rows five_jobs
      (Tool.scrape_job_listings (λ _, Return five_jobs) merge_sort_values
         data_scientist []).1.
Proof.
  assert (columns five_jobs ≠ []) as Hcols by (simpl; discriminate).
  assert (rows five_jobs ≠ []) as Hrows by (simpl; discriminate).
  assert (NoDup (columns five_jobs)) as Hnd
    by (apply (bool_decide_unpack _); vm_compute; exact I).
  destruct (data_holds_the_rows (λ _, Return five_jobs) merge_sort_values
              data_scientist ∅ [] five_jobs Hcols Hrows Hnd five_jobs_summarisable)
    as [Hd Ht].
  split; [apply Hd; reflexivity|apply (Ht _ eq_refl); reflexivity].
Defined.

Lemma metadata_within_rows_witness :
  metadata_bounded city_jobs
    (Demo.jobspy_scraper (λ _, Return city_jobs) merge_sort_values defaults ∅)
  ∧ metadata_bounded city_jobs
      (Tool.scrape_job_listings (λ _, Return city_jobs) merge_sort_values
         defaults []).1.
Proof.
  assert (rows city_jobs ≠ []) as Hrows by (simpl; discriminate).
  assert (columns city_jobs ≠ []) as Hcols by (simpl; discriminate).
  destruct (metadata_within_rows (λ _, Return city_jobs) merge_sort_values defaults
              ∅ [] city_jobs merge_sort_values_perm Hrows Hcols
              city_jobs_summarisable)
    as [Hd Ht].
  split; [apply Hd; reflexivity|apply (Ht _ eq_refl); reflexivity].
Defined.

Lemma top_locations_complete_witness :
  locations_complete city_jobs
    (Demo.jobspy_scraper (λ _, Return city_jobs) merge_sort_values defaults ∅)
  ∧ locations_complete city_jobs
      (Tool.scrape_job_listings (λ _, Return city_jobs) merge_sort_values
         defaults []).1.
Proof.
  assert (rows city_jobs ≠ []) as Hrows by (simpl; discriminate).
  assert (columns city_jobs ≠ []) as Hcols by (simpl; discriminate).
  destruct (top_locations_complete (λ _, Return city_jobs) merge_sort_values defaults
              ∅ [] city_jobs merge_sort_values_perm Hrows Hcols
              city_jobs_summarisable)
    as [Hd Ht].
  split; [apply Hd; reflexivity|apply (Ht _ eq_refl); reflexivity].
Defined.

Lemma blank_columns_witness :
  metadata_field "unique_companies"
    (Demo.jobspy_scraper (λ _, Return blank_jobs) merge_sort_values defaults ∅)
  = Some (VInt 0)
  ∧ metadata_field "top_locations"
      (Demo.jobspy_scraper (λ _, Return blank_jobs) merge_sort_values defaults ∅)
    = Some (VDict []).
Proof.
  assert (rows blank_jobs ≠ []) as Hrows by (simpl; discriminate).
  assert (columns blank_jobs ≠ []) as Hcols by (simpl; discriminate).
  destruct (blank_columns (λ _, Return blank_jobs) merge_sort_values defaults
              ∅ [] blank_jobs merge_sort_values_perm Hrows Hcols
              blank_jobs_summarisable)
    as [Hd _].
  destruct (Hd eq_refl) as [Hco Hci].
  split.
  - apply (Hco [SNone; SNone]); [|repeat constructor].
    exists 0%nat. split; [reflexivity|]. repeat constructor.
  - apply (Hci [SNone; SNone]); [|repeat constructor].
    exists 1%nat. split; [reflexivity|]. repeat constructor.
Defined.

Lemma other_exceptions_propagate_witness :
  Demo.jobspy_scraper (λ _, Raise KeyboardInterrupt) merge_sort_values defaults
    html_descriptions
  = Raise KeyboardInterrupt
  ∧ ∃ line,
      Tool.search_line defaults = Return line
      ∧ Tool.scrape_job_listings (λ _, Raise KeyboardInterrupt) merge_sort_values
          defaults []
        = (Raise KeyboardInterrupt, [(INFO, line)]).
Proof.
  destruct (other_exceptions_propagate (λ _, Raise KeyboardInterrupt)
              merge_sort_values defaults html_descriptions [] KeyboardInterrupt
              eq_refl) as [Hd Ht].
  split; [apply Hd; reflexivity|apply (Ht _ eq_refl); reflexivity].
Defined.

Lemma bad_site_stops_the_call_witness :
  Tool.scrape_job_listings (λ _, Return five_jobs) merge_sort_values site_date []
  = (Return (VDict [ (SStr "success", VBool false);
       (SStr "error",
         VStr "sequence item 0: expected str instance, datetime.date found") ]),
     [ (ERROR, "❌ JobSpy scraping failed: sequence item 0: expected str instance, datetime.date found") ]).
Proof.
  apply (bad_site_stops_the_call (λ _, Return five_jobs) merge_sort_values
           site_date [] [VObj "datetime.date" "datetime.date(2024, 1, 31)"] 0
           (VObj "datetime.date" "datetime.date(2024, 1, 31)")).
  - reflexivity.
  - reflexivity.
  - intros s. discriminate.
  - unfold short_type_name. simpl. lia.
  - intros j Hj. lia.
Defined.

Lemma unsummarisable_table_fails_witness :
  failed
    (Demo.jobspy_scraper (λ _, Return twin_company_jobs) merge_sort_values
       data_scientist ∅)
  ∧ ∃ line text,
      Tool.search_line data_scientist = Return line
      ∧ Tool.scrape_job_listings (λ _, Return twin_company_jobs) merge_sort_values
          data_scientist []
        = (Return (VDict [ (SStr "success", VBool false);
                           (SStr "error", VStr text) ]),
           [ (INFO, line);
             (INFO, "✅ Found 2 jobs for 'Data Scientist'");
             (ERROR, ("❌ JobSpy scraping failed: " ++ text)%string) ]).
Proof.
  assert (rows twin_company_jobs ≠ []) as Hrows by (simpl; discriminate).
  assert (columns twin_company_jobs ≠ []) as Hcols by (simpl; discriminate).
  destruct (unsummarisable_table_fails (λ _, Return twin_company_jobs)
              merge_sort_values data_scientist ∅ [] twin_company_jobs Hrows Hcols)
    as [Hd Ht].
  split.
  - destruct Hd as [Hd _]; [reflexivity|].
    apply Hd, twin_company_jobs_not_summarisable.
  - apply (Ht _ eq_refl); [reflexivity|].
    apply twin_company_jobs_not_summarisable.
Defined.


Lemma logger_configured_once_witness :
  Tool.__init__ (Tool.__init__ ∅) = Tool.__init__ ∅
  ∧ Tool.__init__ ∅ !! "root" = None.
Proof.
  destruct (logger_configured_once ∅) as (Hn & _ & Hother).
  split; [apply (Hn 1%nat)|]. rewrite Hother; [reflexivity|discriminate].
Defined.

Lemma logger_level_after_construction_witness :
  ∃ l, Tool.__init__ ∅ !! "jobspy_scraper_tool" = Some l
       ∧ ∀ root_level lvl, isEnabledFor root_level l lvl = true.
Proof.
  destruct (logger_level_after_construction ∅) as [Hfresh _].
  apply Hfresh. intros l0 Hl0. vm_compute in Hl0. discriminate.
Defined.

Lemma surfaces_differ_only_on_sites_witness :
  ¬ sites_are_str site_enum
  ∧ ∃ e, exc_class e = "TypeError"
         ∧ (Tool.scrape_job_listings (λ _, Return no_jobs) merge_sort_values
              site_enum []).1
           = Return (VDict [ (SStr "success", VBool false);
                             (SStr "error", VStr (exc_str e)) ]).
Proof.
  apply (surfaces_differ_only_on_sites (λ _, Return no_jobs) merge_sort_values
           site_enum []).
  vm_compute. discriminate.
Defined.
